(** * The session REST controller and the API client service

    A shallow embedding of [server/src/api/session/session.controller.js]
    (the six Express handlers and their five helpers) and of the Angular
    [ApiService] that calls them.

    - JavaScript values are the inductive [JsVal]; objects are association
      lists in insertion order.
    - A promise chain is a computation in a state-and-rejection monad
      [Async]: [then_] is [.then], [catch_] is [.catch].  The state of the
      server is the model's store together with the log of every call made
      on the response object [res] and on the model.  A response that
      has been sent refuses a second body: [json] and [send] throw on it.
    - The Sequelize model [Session] and the library function
      [jsonpatch.apply] are not part of the controller: the controller is
      embedded over an arbitrary model and an arbitrary patch function. *)

From Stdlib Require Import ZArith Ascii String List Bool.
From stdpp Require Import base option list gmap strings.

Set Warnings "-register-all".
Local Open Scope string_scope.
Local Open Scope list_scope.
Local Open Scope Z_scope.

(** ** JavaScript values *)

Inductive JsVal : Type :=
| JUndefined
| JNull
| JBool (b : bool)
| JNum (n : Z)
| JStr (s : string)
| JArr (items : list JsVal)
| JObj (props : list (string * JsVal))
| JHost (name : string).

(** [JHost] is a reference to an object of the host (the Express response
    [res]); numbers are the integers (no [NaN], no fractions). *)

(** ToBoolean: [undefined], [null], [false], [0] and the empty string are
    falsy, every object (also an empty array) is truthy. *)
Definition truthy (v : JsVal) : bool :=
  match v with
  | JUndefined | JNull => false
  | JBool b => b
  | JNum n => negb (n =? 0)
  | JStr s => negb (String.eqb s "")
  | JArr _ | JObj _ | JHost _ => true
  end.

Definition Props := list (string * JsVal).

(** The value of the own property [k], [undefined] when there is none. *)
Fixpoint lookup_prop (k : string) (props : Props) : JsVal :=
  match props with
  | [] => JUndefined
  | (k', v) :: rest => if String.eqb k k' then v else lookup_prop k rest
  end.

Fixpoint remove_prop (k : string) (props : Props) : Props :=
  match props with
  | [] => []
  | (k', v) :: rest =>
      if String.eqb k k' then remove_prop k rest
      else (k', v) :: remove_prop k rest
  end.

Definition has_prop (k : string) (props : Props) : bool :=
  existsb (fun p => String.eqb k (fst p)) props.

Definition set_prop (k : string) (v : JsVal) (props : Props) : Props :=
  if has_prop k props
  then map (fun p => if String.eqb k (fst p) then (fst p, v) else p) props
  else props ++ [(k, v)].

Definition TypeError (message : string) : JsVal :=
  JObj [("name", JStr "TypeError"); ("message", JStr message)].

(** Structural equality of two values (what [_.isEqual] decides). *)
Fixpoint jsval_eqb (a b : JsVal) {struct a} : bool :=
  match a, b with
  | JUndefined, JUndefined => true
  | JNull, JNull => true
  | JBool x, JBool y => Bool.eqb x y
  | JNum x, JNum y => x =? y
  | JStr x, JStr y => String.eqb x y
  | JHost x, JHost y => String.eqb x y
  | JArr xs, JArr ys =>
      (fix items (xs ys : list JsVal) {struct xs} : bool :=
         match xs, ys with
         | [], [] => true
         | x :: xs', y :: ys' => jsval_eqb x y && items xs' ys'
         | _, _ => false
         end) xs ys
  | JObj ps, JObj qs =>
      (fix props (ps qs : Props) {struct ps} : bool :=
         match ps, qs with
         | [], [] => true
         | (k, x) :: ps', (k', y) :: qs' =>
             String.eqb k k' && jsval_eqb x y && props ps' qs'
         | _, _ => false
         end) ps qs
  | _, _ => false
  end.

(** ** Promises: state and rejection *)

Inductive Outcome (A : Type) : Type :=
| Resolved (value : A)
| Rejected (reason : JsVal).
Arguments Resolved {A} value.
Arguments Rejected {A} reason.

(** An asynchronous computation over a state [W]: run to completion it
    either resolves with a value or rejects with a reason. *)
Definition Async (W A : Type) : Type := W -> Outcome A * W.

Definition resolve {W A} (a : A) : Async W A := fun w => (Resolved a, w).
Definition reject {W A} (reason : JsVal) : Async W A :=
  fun w => (Rejected reason, w).

(** [p.then(f)]: [f] runs on the value; a rejection skips it. *)
Definition then_ {W A B} (p : Async W A) (f : A -> Async W B) : Async W B :=
  fun w =>
    match p w with
    | (Resolved a, w') => f a w'
    | (Rejected reason, w') => (Rejected reason, w')
    end.

(** [p.catch(h)]: [h] runs on the reason; a value skips it. *)
Definition catch_ {W A} (p : Async W A) (h : JsVal -> Async W A) : Async W A :=
  fun w =>
    match p w with
    | (Resolved a, w') => (Resolved a, w')
    | (Rejected reason, w') => h reason w'
    end.

(** A synchronous step that may throw, lifted into a chain. *)
Definition lift {W A} (o : Outcome A) : Async W A := fun w => (o, w).

Declare Scope async_scope.
Delimit Scope async_scope with async.
Notation "p '.then' f" := (then_ p f)
  (at level 61, left associativity) : async_scope.
Notation "p '.catch' h" := (catch_ p h)
  (at level 61, left associativity) : async_scope.
Notation "x <- p ;; q" := (then_ p (fun x => q))
  (at level 62, p at next level, right associativity) : async_scope.

(** Property access [v.k]: throws on [undefined] and [null]; only own data
    properties of plain objects are modelled, so any other value has none. *)
Definition get_prop (v : JsVal) (k : string) : Outcome JsVal :=
  match v with
  | JUndefined | JNull =>
      Rejected (TypeError ("Cannot read property '" +:+ k +:+ "'"))
  | JObj props => Resolved (lookup_prop k props)
  | _ => Resolved JUndefined
  end.

(** [Reflect.deleteProperty(target, k)], returning the target as it is
    after the call: a target that is not an object throws. *)
Definition Reflect_deleteProperty (target : JsVal) (k : string) : Outcome JsVal :=
  match target with
  | JObj props => Resolved (JObj (remove_prop k props))
  | JArr _ | JHost _ => Resolved target
  | _ => Rejected (TypeError "Reflect.deleteProperty called on non-object")
  end.

(** ** The server's state: the store and the log of calls *)

(** Every call the controller makes on the response object and on the
    model, in order.  [ResStatus c] is [res.status(c)], [ResJson v] is
    [.json(v)], [ResSend v] is [.send(v)], [ResEnd] is [.end()]; the [Db]
    events carry the arguments the model receives. *)
Inductive Event : Type :=
| ResStatus (code : Z)
| ResJson (body : JsVal)
| ResSend (body : JsVal)
| ResEnd
| DbFindAll
| DbFind (where_id : JsVal)
| DbCreate (values : JsVal)
| DbUpsert (values where_id : JsVal)
| DbSave (entity : JsVal)
| DbDestroy (entity : JsVal).

(** The calls that write to the store. *)
Definition is_write (e : Event) : bool :=
  match e with
  | DbCreate _ | DbUpsert _ _ | DbSave _ | DbDestroy _ => true
  | _ => false
  end.

(** The calls on the response object. *)
Definition is_response (e : Event) : bool :=
  match e with
  | ResStatus _ | ResJson _ | ResSend _ | ResEnd => true
  | _ => false
  end.

(** The calls that send the response: after [json], [send] or [end] the
    headers are out. *)
Definition finishes (e : Event) : bool :=
  match e with
  | ResJson _ | ResSend _ | ResEnd => true
  | _ => false
  end.

(** The calls on the model. *)
Definition is_model_call (e : Event) : bool := negb (is_response e).

(** The status codes written, in order. *)
Fixpoint statuses (es : list Event) : list Z :=
  match es with
  | [] => []
  | ResStatus code :: rest => code :: statuses rest
  | _ :: rest => statuses rest
  end.

Module Sequelize.

(** What the controller uses of a Sequelize model over a store [S]: the
    two reads, the two class-level writes and the two instance methods.
    Each call resolves with a value or rejects with an error. *)
Record Model (S : Type) : Type := {
  findAll : S -> Outcome JsVal;
  find : JsVal -> S -> Outcome JsVal;
  create : JsVal -> S -> Outcome JsVal * S;
  upsert : JsVal -> JsVal -> S -> Outcome JsVal * S;
  save : JsVal -> S -> Outcome JsVal * S;
  destroy : JsVal -> S -> Outcome JsVal * S
}.
Arguments findAll {S} _ _.
Arguments find {S} _ _ _.
Arguments create {S} _ _ _.
Arguments upsert {S} _ _ _ _.
Arguments save {S} _ _ _.
Arguments destroy {S} _ _ _.

End Sequelize.

Record World (S : Type) : Type := {
  db : S;
  log : list Event
}.
Arguments db {S} _.
Arguments log {S} _.
Arguments Build_World {S} _ _.

(** The state [w] with the store [s] and the calls [es] made since. *)
Definition extend {S} (s : S) (w : World S) (es : list Event) : World S :=
  {| db := s; log := log w ++ es |}.

(** The calls a handler made: what its run [r] added to the log of the
    state [w] it started in. *)
Definition calls_of {S} (w : World S) (r : Outcome JsVal * World S)
  : list Event :=
  drop (length (log w)) (log (snd r)).

(** A value that is truthy and is no instance of the model. *)
Definition no_instance (entity : JsVal) : Prop :=
  truthy entity = true /\ forall props, entity <> JObj props.

(** The request: [req.params.id] and [req.body]. *)
Record Request : Type := {
  params_id : JsVal;
  body : JsVal
}.

Definition res : JsVal := JHost "res".

(** The error Express throws when a header is set on a response that has
    been sent. *)
Definition ERR_HTTP_HEADERS_SENT : JsVal :=
  JObj [("name", JStr "Error"); ("code", JStr "ERR_HTTP_HEADERS_SENT")].

Section Controller.

Variable S : Type.
Variable Session : Sequelize.Model S.

(** [jsonpatch.apply(entity, patches, true)]: the document as the patches
    leave it, or the error the library throws. *)
Variable jsonpatch_apply : JsVal -> JsVal -> Outcome JsVal.

Local Open Scope async_scope.

Definition emit (e : Event) : Async (World S) unit :=
  fun w => (Resolved tt, {| db := db w; log := log w ++ [e] |}).

(** [res.headersSent], read off the calls made on the response. *)
Definition headersSent (w : World S) : bool := existsb finishes (log w).

(** [res.json(v)] and [res.send(v)] set headers before they write: on a
    response that has been sent the call throws.  [res.status(c)] only
    stores the code and [res.end()] sets no header: they are plain
    [emit]s.  The call is logged whether it throws or not. *)
Definition send_body (e : Event) : Async (World S) unit :=
  fun w =>
    (if headersSent w then Rejected ERR_HTTP_HEADERS_SENT else Resolved tt,
     {| db := db w; log := log w ++ [e] |}).

(** A handler is called with the response [res] of its own request: the
    calls it finds made on [res] are the ones it makes itself.  Its calls
    are added to the log when it is done. *)
Definition on_own_response (chain : Async (World S) JsVal)
  : Async (World S) JsVal :=
  fun w =>
    let '(o, w') := chain {| db := db w; log := [] |} in
    (o, {| db := db w'; log := log w ++ log w' |}).

Definition db_read (e : Event) (op : S -> Outcome JsVal) : Async (World S) JsVal :=
  fun w => (op (db w), {| db := db w; log := log w ++ [e] |}).

Definition db_write (e : Event) (op : S -> Outcome JsVal * S)
  : Async (World S) JsVal :=
  fun w =>
    let '(r, s') := op (db w) in
    (r, {| db := s'; log := log w ++ [e] |}).

(** A method call [entity.m()]: only an instance of the model has the
    method; on [null] or any other value the call throws. *)
Definition method_call (entity : JsVal) (m : Async (World S) JsVal)
  : Async (World S) JsVal :=
  match entity with
  | JObj _ => m
  | _ => reject (TypeError "Cannot read property of null")
  end.

(** [statusCode || dflt] *)
Definition or_default (statusCode : option Z) (dflt : Z) : Z :=
  match statusCode with
  | Some c => if c =? 0 then dflt else c
  | None => dflt
  end.

Definition respondWithResult (statusCode : option Z) (entity : JsVal)
  : Async (World S) JsVal :=
  let statusCode := or_default statusCode 200 in
  if truthy entity then
    _ <- emit (ResStatus statusCode) ;;
    _ <- send_body (ResJson entity) ;;
    resolve res
  else resolve JNull.

Definition patchUpdates (patches : JsVal) (entity : JsVal)
  : Async (World S) JsVal :=
  match jsonpatch_apply entity patches with
  | Rejected err => reject err
  | Resolved patched =>
      method_call entity (db_write (DbSave patched) (Sequelize.save Session patched))
  end.

Definition removeEntity (entity : JsVal) : Async (World S) JsVal :=
  if truthy entity then
    method_call entity (db_write (DbDestroy entity) (Sequelize.destroy Session entity))
    .then (fun _ =>
      _ <- emit (ResStatus 204) ;;
      _ <- emit ResEnd ;;
      resolve JUndefined)
  else resolve JUndefined.

Definition handleEntityNotFound (entity : JsVal) : Async (World S) JsVal :=
  if negb (truthy entity) then
    _ <- emit (ResStatus 404) ;;
    _ <- emit ResEnd ;;
    resolve JNull
  else resolve entity.

Definition handleError (statusCode : option Z) (err : JsVal)
  : Async (World S) JsVal :=
  let statusCode := or_default statusCode 500 in
  _ <- emit (ResStatus statusCode) ;;
  _ <- send_body (ResSend err) ;;
  resolve JUndefined.

(** [if (req.body._id) { Reflect.deleteProperty(req.body, '_id'); }],
    the statement that opens [upsert] and [patch]; the result is
    [req.body] as the statement leaves it. *)
Definition delete_body_id (body : JsVal) : Outcome JsVal :=
  match get_prop body "_id" with
  | Rejected err => Rejected err
  | Resolved id =>
      if truthy id then Reflect_deleteProperty body "_id" else Resolved body
  end.

Definition Session_find (id : JsVal) : Async (World S) JsVal :=
  db_read (DbFind id) (Sequelize.find Session id).

Definition index (req : Request) : Async (World S) JsVal :=
  on_own_response (
    db_read DbFindAll (Sequelize.findAll Session)
      .then (respondWithResult None)
      .catch (handleError None)).

Definition show (req : Request) : Async (World S) JsVal :=
  on_own_response (
    Session_find (params_id req)
      .then handleEntityNotFound
      .then (respondWithResult None)
      .catch (handleError None)).

Definition create (req : Request) : Async (World S) JsVal :=
  on_own_response (
    db_write (DbCreate (body req)) (Sequelize.create Session (body req))
      .then (respondWithResult (Some 201))
      .catch (handleError None)).

(** A rejection of [upsert] or [patch] as a whole is an exception thrown
    by the opening statement, before any promise exists, or the rejection
    of the promise returned, when the error responder itself throws. *)
Definition upsert (req : Request) : Async (World S) JsVal :=
  on_own_response (
    body' <- lift (delete_body_id (body req)) ;;
    db_write (DbUpsert body' (params_id req))
             (Sequelize.upsert Session body' (params_id req))
      .then (respondWithResult None)
      .catch (handleError None)).

Definition patch (req : Request) : Async (World S) JsVal :=
  on_own_response (
    body' <- lift (delete_body_id (body req)) ;;
    Session_find (params_id req)
      .then handleEntityNotFound
      .then (patchUpdates body')
      .then (respondWithResult None)
      .catch (handleError None)).

Definition destroy (req : Request) : Async (World S) JsVal :=
  on_own_response (
    Session_find (params_id req)
      .then handleEntityNotFound
      .then removeEntity
      .catch (handleError None)).

End Controller.

Arguments emit {S} e _.
Arguments headersSent {S} w.
Arguments send_body {S} e _.
Arguments on_own_response {S} chain _.
Arguments respondWithResult {S} statusCode entity _.
Arguments patchUpdates {S} Session jsonpatch_apply patches entity _.
Arguments removeEntity {S} Session entity _.
Arguments handleEntityNotFound {S} entity _.
Arguments handleError {S} statusCode err _.
Arguments Session_find {S} Session id _.
Arguments index {S} Session req _.
Arguments show {S} Session req _.
Arguments create {S} Session req _.
Arguments upsert {S} Session req _.
Arguments patch {S} Session jsonpatch_apply req _.
Arguments destroy {S} Session req _.

(** ** The API client ([ApiService]) *)

Module ApiService.

Inductive Verb : Type := GET | PUT | POST | DELETE.

(** One call on Angular's [HttpClient]: the verb, the URL, the query
    parameters of a [get] and the body of a [put] or [post]. *)
Record HttpCall : Type := {
  verb : Verb;
  url : string;
  params : option JsVal;
  payload : option JsVal
}.

Section Client.

(** The state of everything behind the transport (network and server). *)
Variable Net : Type.

(** [HttpClient]: performing one call emits the decoded response body, or
    fails with an [HttpErrorResponse]. *)
Variable http : HttpCall -> Async Net JsVal.

Variable JSON_stringify : JsVal -> string.

(** [this.apiUrl], set once by the constructor from the app settings. *)
Variable apiUrl : string.

Local Open Scope async_scope.

(** [throwError(error.error)] *)
Definition formatErrors (error : JsVal) : Async Net JsVal :=
  payload <- lift (get_prop error "error") ;;
  reject payload.

(** [source.pipe(catchError(selector))] *)
Definition catchError (source : Async Net JsVal)
  (selector : JsVal -> Async Net JsVal) : Async Net JsVal :=
  source .catch selector.

(** An omitted [params] is a fresh, empty [HttpParams]. *)
Definition get (path : string) (params : option JsVal) : Async Net JsVal :=
  let params := default (JObj []) params in
  catchError
    (http {| verb := GET; url := apiUrl +:+ path;
             params := Some params; payload := None |})
    formatErrors.

(** An omitted [body] is the empty object. *)
Definition put (path : string) (body : option JsVal) : Async Net JsVal :=
  let body := default (JObj []) body in
  catchError
    (http {| verb := PUT; url := apiUrl +:+ path;
             params := None; payload := Some (JStr (JSON_stringify body)) |})
    formatErrors.

Definition post (path : string) (body : option JsVal) : Async Net JsVal :=
  let body := default (JObj []) body in
  catchError
    (http {| verb := POST; url := apiUrl +:+ path;
             params := None; payload := Some (JStr (JSON_stringify body)) |})
    formatErrors.

Definition delete (path : string) : Async Net JsVal :=
  catchError
    (http {| verb := DELETE; url := apiUrl +:+ path;
             params := None; payload := None |})
    formatErrors.

(** What a caller of the service observes for a transport outcome: the
    body as it is, or the failure [formatErrors] makes of the error. *)
Definition normalized (o : Outcome JsVal) : Outcome JsVal :=
  match o with
  | Resolved body => Resolved body
  | Rejected error =>
      match get_prop error "error" with
      | Resolved payload => Rejected payload
      | Rejected thrown => Rejected thrown
      end
  end.

End Client.

End ApiService.

(** ** A store for the model *)

Module Store.

(** Modelled from the spec: the module [conn/sqldb] that exports the
    [Session] model is absent; this is the Persistence Store of the spec's
    sections 3 and 6, key-based find/create/upsert/save/delete over
    records whose identity the store assigns. *)
Record t : Type := {
  records : gmap Z JsVal;
  next_id : Z
}.

(** Modelled from the spec: the empty store of [conn/sqldb], absent; the
    first identity the spec's scenario generates is 1. *)
Definition empty : t := {| records := ∅; next_id := 1 |}.

(** Modelled from the spec: the generic persistence error with which a
    call on the absent store may fail. *)
Definition PersistenceError (detail : string) : JsVal :=
  JObj [("name", JStr "PersistenceError"); ("message", JStr detail)].

(** Modelled from the spec: a record of the absent store, the identity
    [k] followed by the caller's fields. *)
Definition with_id (k : Z) (fields : Props) : JsVal :=
  JObj (("_id", JNum k) :: remove_prop "_id" fields).

(** Modelled from the spec: [findAll()] of the absent store, all records
    as a sequence. *)
Definition findAll (st : t) : Outcome JsVal :=
  Resolved (JArr (map snd (map_to_list (records st)))).

(** Modelled from the spec: [findById(id)] of the absent store; [null]
    when no record has the identity. *)
Definition findById (id : JsVal) (st : t) : Outcome JsVal :=
  match id with
  | JNum k => Resolved (default JNull (records st !! k))
  | _ => Resolved JNull
  end.

(** Modelled from the spec: [create(fields)] of the absent store; the
    identity is assigned by the store. *)
Definition create (fields : JsVal) (st : t) : Outcome JsVal * t :=
  match fields with
  | JObj props =>
      let k := next_id st in
      let r := with_id k props in
      (Resolved r, {| records := <[k := r]> (records st); next_id := k + 1 |})
  | _ => (Rejected (PersistenceError "fields expected"), st)
  end.

(** Modelled from the spec: [upsert(id, fields)] of the absent store; the
    record at [id] is created if absent and replaced if present. *)
Definition upsert (fields id : JsVal) (st : t) : Outcome JsVal * t :=
  match id, fields with
  | JNum k, JObj props =>
      let r := with_id k props in
      (Resolved r, {| records := <[k := r]> (records st);
                      next_id := Z.max (next_id st) (k + 1) |})
  | _, _ => (Rejected (PersistenceError "identity and fields expected"), st)
  end.

(** Modelled from the spec: [save(record)] of the absent store, one write
    of the record under the identity it carries. *)
Definition save (record : JsVal) (st : t) : Outcome JsVal * t :=
  match record with
  | JObj props =>
      match lookup_prop "_id" props with
      | JNum k =>
          (Resolved record, {| records := <[k := record]> (records st);
                               next_id := Z.max (next_id st) (k + 1) |})
      | _ => (Rejected (PersistenceError "record without identity"), st)
      end
  | _ => (Rejected (PersistenceError "record expected"), st)
  end.

(** Modelled from the spec: [deleteById(id)] of the absent store, called
    with the record found. *)
Definition deleteById (record : JsVal) (st : t) : Outcome JsVal * t :=
  match record with
  | JObj props =>
      match lookup_prop "_id" props with
      | JNum k =>
          (Resolved JUndefined, {| records := base.delete k (records st);
                                   next_id := next_id st |})
      | _ => (Rejected (PersistenceError "record without identity"), st)
      end
  | _ => (Rejected (PersistenceError "record expected"), st)
  end.

(** Modelled from the spec: the [Session] model that [conn/sqldb] exports,
    absent, over the store above. *)
Definition Session : Sequelize.Model t := {|
  Sequelize.findAll := findAll;
  Sequelize.find := findById;
  Sequelize.create := create;
  Sequelize.upsert := upsert;
  Sequelize.save := save;
  Sequelize.destroy := deleteById
|}.

(** Modelled from the spec: a [Session] model of [conn/sqldb], absent,
    whose store is out of reach: every call fails with the generic
    persistence error of the spec's section 6. *)
Definition unavailable : Sequelize.Model unit :=
  let down := Rejected (PersistenceError "store unavailable") in {|
  Sequelize.findAll := fun _ => down;
  Sequelize.find := fun _ _ => down;
  Sequelize.create := fun _ s => (down, s);
  Sequelize.upsert := fun _ _ s => (down, s);
  Sequelize.save := fun _ s => (down, s);
  Sequelize.destroy := fun _ s => (down, s)
|}.

End Store.

(** ** A reference for [jsonpatch.apply] *)

Module JsonPatch.

(** The library [fast-json-patch] is a dependency, not code of the
    controller; the theorems about the controller hold for any patch
    function.  This reference covers the six operations of JSON-Patch on
    the members of the document's root, and serves as the instance on
    which the scenarios are run. *)

Definition JsonPatchError (name : string) : JsVal :=
  JObj [("name", JStr name)].

(** The member a JSON pointer of one segment names. *)
Definition pointer_key (path : string) : option string :=
  match path with
  | String "/"%char k =>
      if existsb (Ascii.eqb "/"%char) (list_ascii_of_string k)
      then None else Some k
  | _ => None
  end.

Definition unresolvable {A} : Outcome A :=
  Rejected (JsonPatchError "OPERATION_PATH_UNRESOLVABLE").

Definition apply_operation (doc : Props) (operation : JsVal) : Outcome Props :=
  match operation with
  | JObj o =>
      match lookup_prop "op" o, lookup_prop "path" o with
      | JStr op, JStr path =>
          match pointer_key path with
          | None => unresolvable
          | Some k =>
              let value := lookup_prop "value" o in
              let from :=
                match lookup_prop "from" o with
                | JStr f => pointer_key f
                | _ => None
                end in
              if String.eqb op "add" then Resolved (set_prop k value doc)
              else if String.eqb op "replace" then
                if has_prop k doc then Resolved (set_prop k value doc)
                else unresolvable
              else if String.eqb op "remove" then
                if has_prop k doc then Resolved (remove_prop k doc)
                else unresolvable
              else if String.eqb op "test" then
                if jsval_eqb (lookup_prop k doc) value then Resolved doc
                else Rejected (JsonPatchError "TEST_OPERATION_FAILED")
              else if String.eqb op "copy" then
                match from with
                | Some f =>
                    if has_prop f doc
                    then Resolved (set_prop k (lookup_prop f doc) doc)
                    else unresolvable
                | None => Rejected (JsonPatchError "OPERATION_FROM_REQUIRED")
                end
              else if String.eqb op "move" then
                match from with
                | Some f =>
                    if has_prop f doc
                    then Resolved (set_prop k (lookup_prop f doc) (remove_prop f doc))
                    else unresolvable
                | None => Rejected (JsonPatchError "OPERATION_FROM_REQUIRED")
                end
              else Rejected (JsonPatchError "OPERATION_OP_INVALID")
          end
      | JStr _, _ => Rejected (JsonPatchError "OPERATION_PATH_INVALID")
      | _, _ => Rejected (JsonPatchError "OPERATION_OP_INVALID")
      end
  | _ => Rejected (JsonPatchError "OPERATION_NOT_AN_OBJECT")
  end.

(** The operations in order; the first that fails stops the sequence. *)
Fixpoint apply_operations (doc : Props) (operations : list JsVal)
  : Outcome Props :=
  match operations with
  | [] => Resolved doc
  | operation :: rest =>
      match apply_operation doc operation with
      | Resolved doc' => apply_operations doc' rest
      | Rejected err => Rejected err
      end
  end.

Definition apply (document patches : JsVal) : Outcome JsVal :=
  match patches with
  | JArr operations =>
      match document, operations with
      | JObj doc, _ =>
          match apply_operations doc operations with
          | Resolved doc' => Resolved (JObj doc')
          | Rejected err => Rejected err
          end
      | _, [] => Resolved document
      | _, _ :: _ => unresolvable
      end
  | _ => Rejected (JsonPatchError "SEQUENCE_NOT_AN_ARRAY")
  end.

End JsonPatch.

(** ** The server of the scenarios

    The six handlers over the store of the spec and the reference patch
    function. *)

Module Server.

Definition W : Type := World Store.t.

Definition start : W := {| db := Store.empty; log := [] |}.

(** The next request arrives with the store as the last one left it and
    a response object of its own. *)
Definition next (r : Outcome JsVal * W) : W :=
  {| db := db (snd r); log := [] |}.

Definition index := index Store.Session.
Definition show := show Store.Session.
Definition create := create Store.Session.
Definition upsert := upsert Store.Session.
Definition patch := patch Store.Session JsonPatch.apply.
Definition destroy := destroy Store.Session.

Definition request (id : Z) (body : JsVal) : Request :=
  {| params_id := JNum id; body := body |}.

(** One operation of a patch document, as it arrives in [req.body]. *)
Definition operation (op path : string) (value : JsVal) : JsVal :=
  JObj [("op", JStr op); ("path", JStr path); ("value", value)].

(** The store of the spec's scenarios once [{name: "a"}] is created:
    one record, of identity 1. *)
Definition seeded : W :=
  next (create (request 0 (JObj [("name", JStr "a")])) start).

End Server.

(** * Properties *)

(** ** Properties of objects *)

Lemma lookup_remove_prop_eq (k : string) (props : Props) :
  lookup_prop k (remove_prop k props) = JUndefined.
Proof.
  induction props as [|[k' v] rest IH]; simpl; [reflexivity|].
  destruct (String.eqb k k') eqn:E; [exact IH|].
  simpl. rewrite E. exact IH.
Qed.

Lemma lookup_remove_prop_ne (k j : string) (props : Props) :
  j <> k -> lookup_prop j (remove_prop k props) = lookup_prop j props.
Proof.
  intros Hne.
  induction props as [|[k' v] rest IH]; simpl; [reflexivity|].
  destruct (String.eqb k k') eqn:E.
  - apply String.eqb_eq in E. subst k'.
    destruct (String.eqb j k) eqn:F; [apply String.eqb_eq in F; contradiction|].
    exact IH.
  - simpl. destruct (String.eqb j k'); [reflexivity | exact IH].
Qed.

Lemma has_prop_remove_prop (k : string) (props : Props) :
  has_prop k (remove_prop k props) = false.
Proof.
  unfold has_prop.
  induction props as [|[k' v] rest IH]; simpl; [reflexivity|].
  destruct (String.eqb k k') eqn:E; [exact IH|].
  simpl. rewrite E. exact IH.
Qed.

Lemma remove_prop_idem (k : string) (props : Props) :
  remove_prop k (remove_prop k props) = remove_prop k props.
Proof.
  induction props as [|[k' v] rest IH]; simpl; [reflexivity|].
  destruct (String.eqb k k') eqn:E; [exact IH|].
  simpl. rewrite E, IH. reflexivity.
Qed.

(** A value with a truthy property is a plain object. *)
Lemma truthy_prop_object (v id : JsVal) (k : string) :
  get_prop v k = Resolved id -> truthy id = true ->
  exists props, v = JObj props /\ lookup_prop k props = id.
Proof.
  destruct v; simpl; intros H Ht; try discriminate;
    try (injection H as <-; discriminate).
  injection H as <-. eauto.
Qed.

(** ** Equality of values *)

(** Induction on a value with the hypothesis for every item of an array
    and every member of an object. *)
Lemma JsVal_nested_ind (P : JsVal -> Prop) :
  P JUndefined -> P JNull ->
  (forall b, P (JBool b)) -> (forall n, P (JNum n)) -> (forall s, P (JStr s)) ->
  (forall items, Forall P items -> P (JArr items)) ->
  (forall props, Forall (fun p => P (snd p)) props -> P (JObj props)) ->
  (forall name, P (JHost name)) ->
  forall v, P v.
Proof.
  intros Hu Hn Hb Hz Hs Ha Ho Hh.
  fix IH 1.
  intros [ | | b | n | s | items | props | name];
    [exact Hu | exact Hn | apply Hb | apply Hz | apply Hs | | | apply Hh].
  - apply Ha. induction items as [|x xs IHxs]; constructor.
    + apply IH.
    + exact IHxs.
  - apply Ho. induction props as [|[k x] ps IHps]; constructor.
    + apply IH.
    + exact IHps.
Qed.

Lemma jsval_eqb_eq (a b : JsVal) : jsval_eqb a b = true <-> a = b.
Proof.
  revert b. induction a as [ | | x | x | x | xs IH | ps IH | x ] using JsVal_nested_ind;
    intros [ | | y | y | y | ys | qs | y ]; simpl;
    try (split; [discriminate | intros [=]]); try (split; reflexivity).
  - rewrite Bool.eqb_true_iff. split; [intros ->; reflexivity | intros [= ->]; reflexivity].
  - rewrite Z.eqb_eq. split; [intros ->; reflexivity | intros [= ->]; reflexivity].
  - rewrite String.eqb_eq. split; [intros ->; reflexivity | intros [= ->]; reflexivity].
  - revert ys. induction IH as [|x xs Hx _ IHxs]; intros [|y ys]; simpl;
      try (split; [discriminate | intros [=]]); try (split; reflexivity).
    rewrite andb_true_iff, Hx, (IHxs ys).
    split; [intros [-> [= ->]]; reflexivity | intros [= -> ->]; split; reflexivity].
  - revert qs. induction IH as [|[k x] ps Hx _ IHps]; intros [|[k' y] qs]; simpl;
      try (split; [discriminate | intros [=]]); try (split; reflexivity).
    simpl in Hx.
    rewrite !andb_true_iff, String.eqb_eq, Hx, (IHps qs).
    split; [intros [[-> ->] [= ->]]; reflexivity
           | intros [= -> -> ->]; repeat split; reflexivity].
  - rewrite String.eqb_eq. split; [intros ->; reflexivity | intros [= ->]; reflexivity].
Qed.

Lemma jsval_eqb_neq (a b : JsVal) : a <> b -> jsval_eqb a b = false.
Proof.
  intros Hne. destruct (jsval_eqb a b) eqn:E; [|reflexivity].
  apply jsval_eqb_eq in E. contradiction.
Qed.

(** ** The opening statement of [upsert] and [patch] *)

Lemma delete_body_id_truthy (body id : JsVal) :
  get_prop body "_id" = Resolved id -> truthy id = true ->
  exists props,
    body = JObj props /\
    delete_body_id body = Resolved (JObj (remove_prop "_id" props)).
Proof.
  intros H Ht.
  destruct (truthy_prop_object _ _ _ H Ht) as (props & -> & Hid).
  exists props. split; [reflexivity|].
  unfold delete_body_id. rewrite H, Ht. reflexivity.
Qed.

Lemma delete_body_id_falsy (body id : JsVal) :
  get_prop body "_id" = Resolved id -> truthy id = false ->
  delete_body_id body = Resolved body.
Proof.
  intros H Ht. unfold delete_body_id. rewrite H, Ht. reflexivity.
Qed.

(** Once the statement has run, running it again changes nothing. *)
Lemma delete_body_id_idem (body body' : JsVal) :
  delete_body_id body = Resolved body' ->
  delete_body_id body' = Resolved body'.
Proof.
  unfold delete_body_id.
  destruct (get_prop body "_id") as [id|err] eqn:H; [|discriminate].
  destruct (truthy id) eqn:Ht.
  - destruct (truthy_prop_object _ _ _ H Ht) as (props & -> & _).
    simpl. intros [= <-]. simpl.
    rewrite lookup_remove_prop_eq. reflexivity.
  - intros [= <-]. rewrite H, Ht. reflexivity.
Qed.

(** ** The handlers, case by case *)

Ltac unfold_chain :=
  unfold index, show, create, upsert, patch, destroy, Session_find,
    patchUpdates, removeEntity, handleEntityNotFound, respondWithResult,
    handleError, method_call, on_own_response, catch_, then_, lift, db_read,
    db_write, emit, send_body, headersSent, resolve, reject, extend,
    or_default.

Ltac use_outcomes :=
  simpl;
  repeat match goal with
         | H : ?l = _ |- context [?l] => rewrite H; simpl
         end.

Ltac chain :=
  unfold_chain; use_outcomes;
  repeat (rewrite <- app_assoc; simpl);
  try reflexivity.

Section Cases.

Context {S : Type}.
Variable Session : Sequelize.Model S.
Variable jsonpatch_apply : JsVal -> JsVal -> Outcome JsVal.
Variables (req : Request) (w : World S).

(** A status written changes nothing in whether the response is sent. *)
Lemma headersSent_status (c : Z) :
  headersSent {| db := db w; log := log w ++ [ResStatus c] |} = headersSent w.
Proof.
  unfold headersSent. simpl. rewrite existsb_app. simpl.
  now rewrite !orb_false_r.
Qed.


(** On a response that has been sent the error responder makes the same
    calls, and its [send] throws. *)
Lemma handleError_sent (err : JsVal) :
  headersSent w = true ->
  handleError None err w
  = (Rejected ERR_HTTP_HEADERS_SENT,
     extend (db w) w [ResStatus 500; ResSend err]).
Proof.
  intros Hsent.
  unfold handleError, then_, emit, send_body, resolve, extend, or_default.
  rewrite headersSent_status, Hsent. simpl.
  now rewrite <- app_assoc.
Qed.

Lemma index_ok (v : JsVal) :
  Sequelize.findAll Session (db w) = Resolved v -> truthy v = true ->
  index Session req w
  = (Resolved res, extend (db w) w [DbFindAll; ResStatus 200; ResJson v]).
Proof. intros Hf Ht. chain. Qed.

Lemma index_error (err : JsVal) :
  Sequelize.findAll Session (db w) = Rejected err ->
  index Session req w
  = (Resolved JUndefined,
     extend (db w) w [DbFindAll; ResStatus 500; ResSend err]).
Proof. intros Hf. chain. Qed.

Lemma show_ok (entity : JsVal) :
  Sequelize.find Session (params_id req) (db w) = Resolved entity ->
  truthy entity = true ->
  show Session req w
  = (Resolved res,
     extend (db w) w [DbFind (params_id req); ResStatus 200; ResJson entity]).
Proof. intros Hf Ht. chain. Qed.

Lemma show_not_found (entity : JsVal) :
  Sequelize.find Session (params_id req) (db w) = Resolved entity ->
  truthy entity = false ->
  show Session req w
  = (Resolved JNull,
     extend (db w) w [DbFind (params_id req); ResStatus 404; ResEnd]).
Proof. intros Hf Ht. chain. Qed.

Lemma show_error (err : JsVal) :
  Sequelize.find Session (params_id req) (db w) = Rejected err ->
  show Session req w
  = (Resolved JUndefined,
     extend (db w) w [DbFind (params_id req); ResStatus 500; ResSend err]).
Proof. intros Hf. chain. Qed.

Lemma create_ok (entity : JsVal) (s' : S) :
  Sequelize.create Session (body req) (db w) = (Resolved entity, s') ->
  truthy entity = true ->
  create Session req w
  = (Resolved res,
     extend s' w [DbCreate (body req); ResStatus 201; ResJson entity]).
Proof. intros Hc Ht. chain. Qed.

Lemma create_error (err : JsVal) (s' : S) :
  Sequelize.create Session (body req) (db w) = (Rejected err, s') ->
  create Session req w
  = (Resolved JUndefined,
     extend s' w [DbCreate (body req); ResStatus 500; ResSend err]).
Proof. intros Hc. chain. Qed.

Lemma upsert_thrown (err : JsVal) :
  delete_body_id (body req) = Rejected err ->
  upsert Session req w = (Rejected err, w).
Proof. intros Hb. chain. rewrite app_nil_r. now destruct w. Qed.

Lemma upsert_ok (body' entity : JsVal) (s' : S) :
  delete_body_id (body req) = Resolved body' ->
  Sequelize.upsert Session body' (params_id req) (db w) = (Resolved entity, s') ->
  truthy entity = true ->
  upsert Session req w
  = (Resolved res,
     extend s' w [DbUpsert body' (params_id req); ResStatus 200; ResJson entity]).
Proof. intros Hb Hu Ht. chain. Qed.

Lemma upsert_falsy (body' entity : JsVal) (s' : S) :
  delete_body_id (body req) = Resolved body' ->
  Sequelize.upsert Session body' (params_id req) (db w) = (Resolved entity, s') ->
  truthy entity = false ->
  upsert Session req w
  = (Resolved JNull, extend s' w [DbUpsert body' (params_id req)]).
Proof. intros Hb Hu Ht. chain. Qed.

Lemma upsert_error (body' err : JsVal) (s' : S) :
  delete_body_id (body req) = Resolved body' ->
  Sequelize.upsert Session body' (params_id req) (db w) = (Rejected err, s') ->
  upsert Session req w
  = (Resolved JUndefined,
     extend s' w [DbUpsert body' (params_id req); ResStatus 500; ResSend err]).
Proof. intros Hb Hu. chain. Qed.

(** The one call [upsert] makes on the model, whatever the model answers:
    the calls after it are calls on the response. *)
Lemma upsert_one_call (body' : JsVal) :
  delete_body_id (body req) = Resolved body' ->
  exists rest,
    snd (upsert Session req w)
    = extend (snd (Sequelize.upsert Session body' (params_id req) (db w))) w
             (DbUpsert body' (params_id req) :: rest) /\
    forallb is_response rest = true.
Proof.
  intros Hb.
  destruct (Sequelize.upsert Session body' (params_id req) (db w))
    as [[entity|err] s'] eqn:Hu.
  - destruct (truthy entity) eqn:Ht.
    + rewrite (upsert_ok _ _ _ Hb Hu Ht). simpl. eauto.
    + rewrite (upsert_falsy _ _ _ Hb Hu Ht). simpl. eauto.
  - rewrite (upsert_error _ _ _ Hb Hu). simpl. eauto.
Qed.

Lemma patch_thrown (err : JsVal) :
  delete_body_id (body req) = Rejected err ->
  patch Session jsonpatch_apply req w = (Rejected err, w).
Proof. intros Hb. chain. rewrite app_nil_r. now destruct w. Qed.

Lemma patch_ok (patches patched saved : JsVal) (props : Props) (s' : S) :
  delete_body_id (body req) = Resolved patches ->
  Sequelize.find Session (params_id req) (db w) = Resolved (JObj props) ->
  jsonpatch_apply (JObj props) patches = Resolved patched ->
  Sequelize.save Session patched (db w) = (Resolved saved, s') ->
  truthy saved = true ->
  patch Session jsonpatch_apply req w
  = (Resolved res,
     extend s' w [DbFind (params_id req); DbSave patched;
                  ResStatus 200; ResJson saved]).
Proof. intros Hb Hf Hp Hs Ht. chain. Qed.

Lemma patch_save_error (patches patched err : JsVal) (props : Props) (s' : S) :
  delete_body_id (body req) = Resolved patches ->
  Sequelize.find Session (params_id req) (db w) = Resolved (JObj props) ->
  jsonpatch_apply (JObj props) patches = Resolved patched ->
  Sequelize.save Session patched (db w) = (Rejected err, s') ->
  patch Session jsonpatch_apply req w
  = (Resolved JUndefined,
     extend s' w [DbFind (params_id req); DbSave patched;
                  ResStatus 500; ResSend err]).
Proof. intros Hb Hf Hp Hs. chain. Qed.

(** The patch function accepts the operations on the record found: the
    document it returns is what is saved, whatever the model answers. *)
Lemma patch_saves (patches patched : JsVal) (props : Props) :
  delete_body_id (body req) = Resolved patches ->
  Sequelize.find Session (params_id req) (db w) = Resolved (JObj props) ->
  jsonpatch_apply (JObj props) patches = Resolved patched ->
  exists rest,
    snd (patch Session jsonpatch_apply req w)
    = extend (snd (Sequelize.save Session patched (db w))) w
             (DbFind (params_id req) :: DbSave patched :: rest) /\
    forallb is_response rest = true.
Proof.
  intros Hb Hf Hp.
  destruct (Sequelize.save Session patched (db w)) as [[saved|err] s'] eqn:Hs.
  - destruct (truthy saved) eqn:Ht.
    + rewrite (patch_ok _ _ _ _ _ Hb Hf Hp Hs Ht). simpl. eauto.
    + exists []. split; [|reflexivity]. chain.
  - rewrite (patch_save_error _ _ _ _ _ Hb Hf Hp Hs). simpl. eauto.
Qed.

(** The patch function throws on the record found: nothing is saved. *)
Lemma patch_invalid (patches entity err : JsVal) :
  delete_body_id (body req) = Resolved patches ->
  Sequelize.find Session (params_id req) (db w) = Resolved entity ->
  truthy entity = true ->
  jsonpatch_apply entity patches = Rejected err ->
  patch Session jsonpatch_apply req w
  = (Resolved JUndefined,
     extend (db w) w [DbFind (params_id req); ResStatus 500; ResSend err]).
Proof. intros Hb Hf Ht Hp. chain. Qed.

Lemma patch_find_error (patches err : JsVal) :
  delete_body_id (body req) = Resolved patches ->
  Sequelize.find Session (params_id req) (db w) = Rejected err ->
  patch Session jsonpatch_apply req w
  = (Resolved JUndefined,
     extend (db w) w [DbFind (params_id req); ResStatus 500; ResSend err]).
Proof. intros Hb Hf. chain. Qed.

(** What [patchUpdates] does with the [null] that [handleEntityNotFound]
    hands on: it rejects, with the error of the patch function or with the
    [TypeError] of [entity.save()]. *)
Lemma patchUpdates_null (patches : JsVal) (w' : World S) :
  exists err,
    patchUpdates Session jsonpatch_apply patches JNull w' = (Rejected err, w').
Proof.
  unfold patchUpdates, method_call, reject.
  destruct (jsonpatch_apply JNull patches) as [patched|err]; eauto.
Qed.

(** No record at the [id]: the 404 is followed by the error responder,
    whose [send] throws on the response that the 404 has ended; the promise
    the handler returns rejects. *)
Lemma patch_not_found (patches entity : JsVal) :
  delete_body_id (body req) = Resolved patches ->
  Sequelize.find Session (params_id req) (db w) = Resolved entity ->
  truthy entity = false ->
  exists err,
    patch Session jsonpatch_apply req w
    = (Rejected ERR_HTTP_HEADERS_SENT,
       extend (db w) w [DbFind (params_id req); ResStatus 404; ResEnd;
                        ResStatus 500; ResSend err]).
Proof.
  intros Hb Hf Ht.
  destruct (patchUpdates_null patches
              {| db := db w;
                 log := [DbFind (params_id req); ResStatus 404; ResEnd] |})
    as [err Hn].
  exists err. revert Hn.
  unfold patch, Session_find, handleEntityNotFound, respondWithResult,
    handleError, on_own_response, catch_, then_, lift, db_read, emit,
    send_body, headersSent, resolve, extend, or_default.
  use_outcomes. intros ->. reflexivity.
Qed.

Lemma destroy_ok (props : Props) (v : JsVal) (s' : S) :
  Sequelize.find Session (params_id req) (db w) = Resolved (JObj props) ->
  Sequelize.destroy Session (JObj props) (db w) = (Resolved v, s') ->
  destroy Session req w
  = (Resolved JUndefined,
     extend s' w [DbFind (params_id req); DbDestroy (JObj props);
                  ResStatus 204; ResEnd]).
Proof. intros Hf Hd. chain. Qed.

Lemma destroy_not_found (entity : JsVal) :
  Sequelize.find Session (params_id req) (db w) = Resolved entity ->
  truthy entity = false ->
  destroy Session req w
  = (Resolved JUndefined,
     extend (db w) w [DbFind (params_id req); ResStatus 404; ResEnd]).
Proof. intros Hf Ht. chain. Qed.

Lemma destroy_find_error (err : JsVal) :
  Sequelize.find Session (params_id req) (db w) = Rejected err ->
  destroy Session req w
  = (Resolved JUndefined,
     extend (db w) w [DbFind (params_id req); ResStatus 500; ResSend err]).
Proof. intros Hf. chain. Qed.

Lemma destroy_error (props : Props) (err : JsVal) (s' : S) :
  Sequelize.find Session (params_id req) (db w) = Resolved (JObj props) ->
  Sequelize.destroy Session (JObj props) (db w) = (Rejected err, s') ->
  destroy Session req w
  = (Resolved JUndefined,
     extend s' w [DbFind (params_id req); DbDestroy (JObj props);
                  ResStatus 500; ResSend err]).
Proof. intros Hf Hd. chain. Qed.

End Cases.

(** ** The success responder *)

(** C10: when the value that flows into the success responder is falsy,
    the responder returns [null] and calls nothing on the response: no
    status and no body are written, whatever status code it was built
    with. *)
Theorem respondWithResult_falsy {S : Type} (statusCode : option Z)
  (entity : JsVal) (w : World S) :
  truthy entity = false ->
  respondWithResult statusCode entity w = (Resolved JNull, w).
Proof.
  intros Ht. unfold respondWithResult. rewrite Ht. reflexivity.
Qed.

Lemma respondWithResult_falsy_witness :
  truthy (JBool false) = false /\
  respondWithResult (Some 201) (JBool false) Server.start
  = (Resolved JNull, Server.start).
Proof.
  split; [reflexivity|].
  apply (respondWithResult_falsy (Some 201) (JBool false) Server.start).
  reflexivity.
Defined.

(** The same at the level of a handler: a model whose [upsert] resolves
    with a falsy value leaves the request without any response. *)
Example upsert_resolving_false (S : Type) (Session : Sequelize.Model S)
  (req : Request) (w : World S) (body' : JsVal) (s' : S) :
  delete_body_id (body req) = Resolved body' ->
  Sequelize.upsert Session body' (params_id req) (db w)
  = (Resolved (JBool false), s') ->
  log (snd (upsert Session req w)) = log w ++ [DbUpsert body' (params_id req)].
Proof.
  intros Hb Hu.
  rewrite (upsert_falsy Session req w body' (JBool false) s' Hb Hu eq_refl).
  reflexivity.
Qed.

(** ** The error responder *)




(** ** Patch *)

(** C2: when the patch function refuses the operations on the record
    found (a validation failure or an inapplicable operation), the patch is
    rejected as a whole: the only call on the model is the [find], nothing
    is saved, the store is the one the request started with (so the record
    is still found as it was), and the error is surfaced to the caller. *)
Theorem refused_patch_leaves_record {S : Type} (Session : Sequelize.Model S)
  (jsonpatch_apply : JsVal -> JsVal -> Outcome JsVal)
  (req : Request) (w : World S) (patches entity err : JsVal) :
  delete_body_id (body req) = Resolved patches ->
  Sequelize.find Session (params_id req) (db w) = Resolved entity ->
  truthy entity = true ->
  jsonpatch_apply entity patches = Rejected err ->
  let w' := snd (patch Session jsonpatch_apply req w) in
  db w' = db w /\
  Sequelize.find Session (params_id req) (db w') = Resolved entity /\
  log w' = log w ++ [DbFind (params_id req); ResStatus 500; ResSend err] /\
  List.filter is_write (log w') = List.filter is_write (log w).
Proof.
  intros Hb Hf Ht Hp.
  rewrite (patch_invalid Session jsonpatch_apply req w patches entity err
             Hb Hf Ht Hp).
  simpl. repeat split; [exact Hf|].
  rewrite List.filter_app. simpl. apply app_nil_r.
Qed.

Lemma refused_patch_leaves_record_witness :
  let req := Server.request 1 (JArr [Server.operation "test" "/name" (JStr "z")]) in
  let stored := JObj [("_id", JNum 1); ("name", JStr "a")] in
  let w' := snd (Server.patch req Server.seeded) in
  db w' = db Server.seeded /\
  Store.findById (JNum 1) (db w') = Resolved stored /\
  log w' = log Server.seeded ++
           [DbFind (JNum 1); ResStatus 500;
            ResSend (JsonPatch.JsonPatchError "TEST_OPERATION_FAILED")] /\
  List.filter is_write (log w') = List.filter is_write (log Server.seeded).
Proof.
  apply (refused_patch_leaves_record Store.Session JsonPatch.apply
           (Server.request 1 (JArr [Server.operation "test" "/name" (JStr "z")]))
           Server.seeded
           (JArr [Server.operation "test" "/name" (JStr "z")])
           (JObj [("_id", JNum 1); ("name", JStr "a")])
           (JsonPatch.JsonPatchError "TEST_OPERATION_FAILED"));
    reflexivity.
Defined.

(** ** Not found *)

(** C3, with the input where the code departs from it.  When the [find]
    resolves with no record, Show and Destroy answer 404 and the request
    ends there.  Patch answers 404 and goes on: [patchUpdates] receives the
    [null] of [handleEntityNotFound] and, unlike [respondWithResult] and
    [removeEntity], does not test it; the patch function throws on it, or
    the call [entity.save()] does, and the error responder runs after the
    404.  In all three nothing is written to the store. *)
Theorem not_found_outcomes {S : Type} (Session : Sequelize.Model S)
  (jsonpatch_apply : JsVal -> JsVal -> Outcome JsVal)
  (req : Request) (w : World S) (entity : JsVal) :
  Sequelize.find Session (params_id req) (db w) = Resolved entity ->
  truthy entity = false ->
  let id := params_id req in
  snd (show Session req w) = extend (db w) w [DbFind id; ResStatus 404; ResEnd] /\
  snd (destroy Session req w) = extend (db w) w [DbFind id; ResStatus 404; ResEnd] /\
  (forall patches,
      delete_body_id (body req) = Resolved patches ->
      exists err,
        snd (patch Session jsonpatch_apply req w)
        = extend (db w) w [DbFind id; ResStatus 404; ResEnd;
                           ResStatus 500; ResSend err]).
Proof.
  intros Hf Ht. cbv zeta.
  rewrite (show_not_found Session req w entity Hf Ht).
  rewrite (destroy_not_found Session req w entity Hf Ht).
  repeat apply conj; try reflexivity.
  intros patches Hb.
  destruct (patch_not_found Session jsonpatch_apply req w patches entity Hb Hf Ht)
    as [err ->].
  exists err. reflexivity.
Qed.

Lemma not_found_outcomes_witness :
  let req := Server.request 999 (JArr []) in
  Store.findById (JNum 999) Store.empty = Resolved JNull /\
  snd (Server.show req Server.start)
  = extend Store.empty Server.start [DbFind (JNum 999); ResStatus 404; ResEnd] /\
  snd (Server.destroy req Server.start)
  = extend Store.empty Server.start [DbFind (JNum 999); ResStatus 404; ResEnd] /\
  exists err,
    snd (Server.patch req Server.start)
    = extend Store.empty Server.start
        [DbFind (JNum 999); ResStatus 404; ResEnd; ResStatus 500; ResSend err].
Proof.
  intros req.
  destruct (not_found_outcomes Store.Session JsonPatch.apply req Server.start
              JNull eq_refl eq_refl) as (Hshow & Hdestroy & Hpatch).
  split; [reflexivity|].
  split; [exact Hshow|].
  split; [exact Hdestroy|].
  exact (Hpatch (JArr []) eq_refl).
Defined.

(** The patch of an absent record evaluated: the error responder is
    called with the [TypeError] of [entity.save()] on [null]. *)
Example patch_absent_evaluated :
  Server.patch (Server.request 999 (JArr [])) Server.start
  = (Rejected ERR_HTTP_HEADERS_SENT,
     extend Store.empty Server.start
       [DbFind (JNum 999); ResStatus 404; ResEnd;
        ResStatus 500; ResSend (TypeError "Cannot read property of null")]).
Proof. reflexivity. Qed.

(** ** A [test] operation that does not match *)

(** The reference patch function refuses a document whose first operation
    tests a member against a value it does not have. *)
Lemma test_mismatch_refused (doc : Props) (k : string) (value : JsVal)
  (rest : list JsVal) :
  JsonPatch.pointer_key ("/" +:+ k) = Some k ->
  lookup_prop k doc <> value ->
  JsonPatch.apply (JObj doc)
                  (JArr (Server.operation "test" ("/" +:+ k) value :: rest))
  = Rejected (JsonPatch.JsonPatchError "TEST_OPERATION_FAILED").
Proof.
  intros Hk Hne.
  unfold JsonPatch.apply, Server.operation.
  cbn [JsonPatch.apply_operations JsonPatch.apply_operation lookup_prop
       String.eqb Ascii.eqb Bool.eqb].
  rewrite Hk. cbn [String.eqb Ascii.eqb Bool.eqb].
  now rewrite (jsval_eqb_neq _ _ Hne).
Qed.

(** On the store of the spec: such a patch of a stored record answers 500
    with the error of the test, and the store is left as it was. *)
Lemma test_mismatch_leaves_record (id : Z) (doc : Props) (k : string)
  (value : JsVal) (rest : list JsVal) (w : Server.W) :
  Store.records (db w) !! id = Some (JObj doc) ->
  JsonPatch.pointer_key ("/" +:+ k) = Some k ->
  lookup_prop k doc <> value ->
  Server.patch
    (Server.request id (JArr (Server.operation "test" ("/" +:+ k) value :: rest))) w
  = (Resolved JUndefined,
     extend (db w) w
       [DbFind (JNum id); ResStatus 500;
        ResSend (JsonPatch.JsonPatchError "TEST_OPERATION_FAILED")]).
Proof.
  intros Hrec Hk Hne. unfold Server.patch.
  apply (patch_invalid Store.Session JsonPatch.apply
           (Server.request id
              (JArr (Server.operation "test" ("/" +:+ k) value :: rest)))
           w
           (JArr (Server.operation "test" ("/" +:+ k) value :: rest)) (JObj doc)).
  - reflexivity.
  - simpl. now rewrite Hrec.
  - reflexivity.
  - now apply test_mismatch_refused.
Qed.

(** ** Status codes *)

(** C5: the status each handler writes.  A success is a call on the model
    that resolves with a record or a sequence of records (a truthy value).
    - 200 with the result as JSON body: Index, Show, Upsert, Patch;
    - 201 with the created record: Create;
    - 204 and no body: Destroy;
    - 404 and no body when the [find] resolves with no record (Show,
      Destroy, and the first response of Patch);
    - 500 with the error as body when a call on the model, or the patch
      function, fails. *)
Theorem status_codes {S : Type} (Session : Sequelize.Model S)
  (jsonpatch_apply : JsVal -> JsVal -> Outcome JsVal)
  (req : Request) (w : World S) :
  let id := params_id req in
  (* 200 *)
  (forall v,
      Sequelize.findAll Session (db w) = Resolved v -> truthy v = true ->
      snd (index Session req w)
      = extend (db w) w [DbFindAll; ResStatus 200; ResJson v]) /\
  (forall entity,
      Sequelize.find Session id (db w) = Resolved entity ->
      truthy entity = true ->
      snd (show Session req w)
      = extend (db w) w [DbFind id; ResStatus 200; ResJson entity]) /\
  (forall body' entity s',
      delete_body_id (body req) = Resolved body' ->
      Sequelize.upsert Session body' id (db w) = (Resolved entity, s') ->
      truthy entity = true ->
      snd (upsert Session req w)
      = extend s' w [DbUpsert body' id; ResStatus 200; ResJson entity]) /\
  (forall patches props patched saved s',
      delete_body_id (body req) = Resolved patches ->
      Sequelize.find Session id (db w) = Resolved (JObj props) ->
      jsonpatch_apply (JObj props) patches = Resolved patched ->
      Sequelize.save Session patched (db w) = (Resolved saved, s') ->
      truthy saved = true ->
      snd (patch Session jsonpatch_apply req w)
      = extend s' w [DbFind id; DbSave patched; ResStatus 200; ResJson saved]) /\
  (* 201 *)
  (forall entity s',
      Sequelize.create Session (body req) (db w) = (Resolved entity, s') ->
      truthy entity = true ->
      snd (create Session req w)
      = extend s' w [DbCreate (body req); ResStatus 201; ResJson entity]) /\
  (* 204 *)
  (forall props v s',
      Sequelize.find Session id (db w) = Resolved (JObj props) ->
      Sequelize.destroy Session (JObj props) (db w) = (Resolved v, s') ->
      snd (destroy Session req w)
      = extend s' w [DbFind id; DbDestroy (JObj props); ResStatus 204; ResEnd]) /\
  (* 404 *)
  (forall entity,
      Sequelize.find Session id (db w) = Resolved entity ->
      truthy entity = false ->
      snd (show Session req w)
      = extend (db w) w [DbFind id; ResStatus 404; ResEnd] /\
      snd (destroy Session req w)
      = extend (db w) w [DbFind id; ResStatus 404; ResEnd] /\
      (forall patches,
          delete_body_id (body req) = Resolved patches ->
          exists rest,
            snd (patch Session jsonpatch_apply req w)
            = extend (db w) w (DbFind id :: ResStatus 404 :: ResEnd :: rest))) /\
  (* 500 *)
  (forall err,
      Sequelize.findAll Session (db w) = Rejected err ->
      snd (index Session req w)
      = extend (db w) w [DbFindAll; ResStatus 500; ResSend err]) /\
  (forall err,
      Sequelize.find Session id (db w) = Rejected err ->
      snd (show Session req w)
      = extend (db w) w [DbFind id; ResStatus 500; ResSend err] /\
      snd (destroy Session req w)
      = extend (db w) w [DbFind id; ResStatus 500; ResSend err] /\
      (forall patches,
          delete_body_id (body req) = Resolved patches ->
          snd (patch Session jsonpatch_apply req w)
          = extend (db w) w [DbFind id; ResStatus 500; ResSend err])) /\
  (forall err s',
      Sequelize.create Session (body req) (db w) = (Rejected err, s') ->
      snd (create Session req w)
      = extend s' w [DbCreate (body req); ResStatus 500; ResSend err]) /\
  (forall body' err s',
      delete_body_id (body req) = Resolved body' ->
      Sequelize.upsert Session body' id (db w) = (Rejected err, s') ->
      snd (upsert Session req w)
      = extend s' w [DbUpsert body' id; ResStatus 500; ResSend err]) /\
  (forall patches entity err,
      delete_body_id (body req) = Resolved patches ->
      Sequelize.find Session id (db w) = Resolved entity ->
      truthy entity = true ->
      jsonpatch_apply entity patches = Rejected err ->
      snd (patch Session jsonpatch_apply req w)
      = extend (db w) w [DbFind id; ResStatus 500; ResSend err]) /\
  (forall patches props patched err s',
      delete_body_id (body req) = Resolved patches ->
      Sequelize.find Session id (db w) = Resolved (JObj props) ->
      jsonpatch_apply (JObj props) patches = Resolved patched ->
      Sequelize.save Session patched (db w) = (Rejected err, s') ->
      snd (patch Session jsonpatch_apply req w)
      = extend s' w [DbFind id; DbSave patched; ResStatus 500; ResSend err]) /\
  (forall props err s',
      Sequelize.find Session id (db w) = Resolved (JObj props) ->
      Sequelize.destroy Session (JObj props) (db w) = (Rejected err, s') ->
      snd (destroy Session req w)
      = extend s' w [DbFind id; DbDestroy (JObj props); ResStatus 500; ResSend err]).
Proof.
  intros id. unfold id. clear id.
  repeat match goal with |- _ /\ _ => split end.
  - intros v Hf Ht. now rewrite (index_ok Session req w v Hf Ht).
  - intros e Hf Ht. now rewrite (show_ok Session req w e Hf Ht).
  - intros b e s' Hb Hu Ht. now rewrite (upsert_ok Session req w b e s' Hb Hu Ht).
  - intros ps props pd sv s' Hb Hf Hp Hs Ht.
    now rewrite (patch_ok Session jsonpatch_apply req w ps pd sv props s'
                   Hb Hf Hp Hs Ht).
  - intros e s' Hc Ht. now rewrite (create_ok Session req w e s' Hc Ht).
  - intros props v s' Hf Hd. now rewrite (destroy_ok Session req w props v s' Hf Hd).
  - intros e Hf Ht. split; [|split].
    + now rewrite (show_not_found Session req w e Hf Ht).
    + now rewrite (destroy_not_found Session req w e Hf Ht).
    + intros ps Hb.
      destruct (patch_not_found Session jsonpatch_apply req w ps e Hb Hf Ht)
        as [err ->].
      simpl. eauto.
  - intros err Hf. now rewrite (index_error Session req w err Hf).
  - intros err Hf. split; [|split].
    + now rewrite (show_error Session req w err Hf).
    + now rewrite (destroy_find_error Session req w err Hf).
    + intros ps Hb.
      now rewrite (patch_find_error Session jsonpatch_apply req w ps err Hb Hf).
  - intros err s' Hc. now rewrite (create_error Session req w err s' Hc).
  - intros b err s' Hb Hu. now rewrite (upsert_error Session req w b err s' Hb Hu).
  - intros ps e err Hb Hf Ht Hp.
    now rewrite (patch_invalid Session jsonpatch_apply req w ps e err Hb Hf Ht Hp).
  - intros ps props pd err s' Hb Hf Hp Hs.
    now rewrite (patch_save_error Session jsonpatch_apply req w ps pd err props s'
                   Hb Hf Hp Hs).
  - intros props err s' Hf Hd.
    now rewrite (destroy_error Session req w props err s' Hf Hd).
Qed.

(** The codes on the spec's scenario: the store holds record 1, named "a";
    then the same on the empty store and on a store out of reach. *)
Lemma status_codes_witness :
  let stored := JObj [("_id", JNum 1); ("name", JStr "a")] in
  let renamed := JObj [("_id", JNum 1); ("name", JStr "b")] in
  let rename := JArr [Server.operation "replace" "/name" (JStr "b")] in
  let down := Store.PersistenceError "store unavailable" in
  let offline : World unit := {| db := tt; log := [] |} in
  log (snd (Server.index (Server.request 1 rename) Server.seeded))
  = [DbFindAll; ResStatus 200; ResJson (JArr [stored])] /\
  log (snd (Server.show (Server.request 1 rename) Server.seeded))
  = [DbFind (JNum 1); ResStatus 200; ResJson stored] /\
  log (snd (Server.patch (Server.request 1 rename) Server.seeded))
  = [DbFind (JNum 1); DbSave renamed; ResStatus 200; ResJson renamed] /\
  log (snd (Server.destroy (Server.request 1 rename) Server.seeded))
  = [DbFind (JNum 1); DbDestroy stored; ResStatus 204; ResEnd] /\
  log (snd (Server.create (Server.request 0 (JObj [("name", JStr "a")]))
                          Server.start))
  = [DbCreate (JObj [("name", JStr "a")]); ResStatus 201; ResJson stored] /\
  log (snd (Server.show (Server.request 999 JUndefined) Server.start))
  = [DbFind (JNum 999); ResStatus 404; ResEnd] /\
  log (snd (index Store.unavailable (Server.request 1 rename) offline))
  = [DbFindAll; ResStatus 500; ResSend down].
Proof.
  intros stored renamed rename down offline.
  pose proof (status_codes Store.Session JsonPatch.apply
                (Server.request 1 rename) Server.seeded) as Hseeded.
  pose proof (status_codes Store.Session JsonPatch.apply
                (Server.request 0 (JObj [("name", JStr "a")])) Server.start)
    as Hcreate.
  pose proof (status_codes Store.Session JsonPatch.apply
                (Server.request 999 JUndefined) Server.start) as Habsent.
  pose proof (status_codes Store.unavailable JsonPatch.apply
                (Server.request 1 rename) offline) as Hdown.
  cbv zeta in Hseeded, Hcreate, Habsent, Hdown.
  destruct Hseeded as (Hindex & Hshow & _ & Hpatch & _ & Hdestroy & _).
  destruct Hcreate as (_ & _ & _ & _ & Hcreate & _).
  destruct Habsent as (_ & _ & _ & _ & _ & _ & Habsent & _).
  destruct Hdown as (_ & _ & _ & _ & _ & _ & _ & Hdown & _).
  repeat apply conj.
  - unfold Server.index.
    rewrite (Hindex (JArr [stored])); reflexivity.
  - unfold Server.show.
    rewrite (Hshow stored); reflexivity.
  - unfold Server.patch.
    rewrite (Hpatch rename [("_id", JNum 1); ("name", JStr "a")] renamed renamed
               (snd (Store.save renamed (db Server.seeded)))); reflexivity.
  - unfold Server.destroy.
    rewrite (Hdestroy [("_id", JNum 1); ("name", JStr "a")] JUndefined
               (snd (Store.deleteById stored (db Server.seeded)))); reflexivity.
  - unfold Server.create.
    rewrite (Hcreate stored (db Server.seeded)); reflexivity.
  - unfold Server.show.
    destruct (Habsent JNull) as (-> & _); reflexivity.
  - rewrite (Hdown down); reflexivity.
Defined.

(** ** The identity in the body *)

(** C1 as the spec states it does not hold.  An upsert whose body carries
    the falsy identity 0 hands the model the body with its [_id]; and a
    patch whose operation replaces [/_id] saves the record of identity 1
    under the identity 7 of the body. *)
Lemma body_identity_reaches_store :
  let sent := JObj [("_id", JNum 0); ("name", JStr "a")] in
  let saved := JObj [("_id", JNum 7); ("name", JStr "a")] in
  (log (snd (Server.upsert (Server.request 5 sent) Server.start))
   = [DbUpsert sent (JNum 5); ResStatus 200;
      ResJson (JObj [("_id", JNum 5); ("name", JStr "a")])] /\
   get_prop sent "_id" = Resolved (JNum 0)) /\
  (log (snd (Server.patch
               (Server.request 1 (JArr [Server.operation "replace" "/_id" (JNum 7)]))
               Server.seeded))
   = [DbFind (JNum 1); DbSave saved; ResStatus 200; ResJson saved] /\
   get_prop saved "_id" = Resolved (JNum 7) /\
   JNum 7 <> JNum 1).
Proof.
  repeat apply conj; try reflexivity. discriminate.
Qed.

(** C1, amended: when the body of an upsert or a patch carries a truthy
    [_id], the body is a plain object and that property is deleted from it
    before anything else happens; every other property stays.  Upsert then
    makes one call on the model, with the body without [_id] and the [id]
    of the path as the selector; Patch runs as it runs on the body without
    [_id]. *)
Theorem truthy_body_id_is_deleted {S : Type} (Session : Sequelize.Model S)
  (jsonpatch_apply : JsVal -> JsVal -> Outcome JsVal)
  (req : Request) (w : World S) (id : JsVal) :
  get_prop (body req) "_id" = Resolved id ->
  truthy id = true ->
  exists props,
    let body' := JObj (remove_prop "_id" props) in
    let req' := {| params_id := params_id req; body := body' |} in
    body req = JObj props /\
    delete_body_id (body req) = Resolved body' /\
    get_prop body' "_id" = Resolved JUndefined /\
    (forall k, k <> "_id" -> get_prop body' k = get_prop (body req) k) /\
    (exists rest,
        snd (upsert Session req w)
        = extend (snd (Sequelize.upsert Session body' (params_id req) (db w))) w
                 (DbUpsert body' (params_id req) :: rest) /\
        forallb is_response rest = true) /\
    patch Session jsonpatch_apply req w = patch Session jsonpatch_apply req' w.
Proof.
  intros Hid Ht.
  destruct (delete_body_id_truthy _ _ Hid Ht) as (props & Hbody & Hdel).
  exists props. cbv zeta.
  split; [exact Hbody|]. split; [exact Hdel|].
  split; [simpl; now rewrite lookup_remove_prop_eq|].
  split.
  { intros k Hk. rewrite Hbody. simpl.
    now rewrite lookup_remove_prop_ne. }
  split; [apply upsert_one_call; exact Hdel|].
  unfold patch, then_, lift. cbn [body params_id].
  rewrite Hdel, (delete_body_id_idem _ _ Hdel). reflexivity.
Qed.

Lemma truthy_body_id_is_deleted_witness :
  let req := Server.request 5 (JObj [("_id", JNum 7); ("name", JStr "a")]) in
  exists props,
    let body' := JObj (remove_prop "_id" props) in
    let req' := {| params_id := JNum 5; body := body' |} in
    body req = JObj props /\
    delete_body_id (body req) = Resolved body' /\
    get_prop body' "_id" = Resolved JUndefined /\
    (forall k, k <> "_id" -> get_prop body' k = get_prop (body req) k) /\
    (exists rest,
        snd (upsert Store.Session req Server.start)
        = extend (snd (Store.upsert body' (JNum 5) Store.empty)) Server.start
                 (DbUpsert body' (JNum 5) :: rest) /\
        forallb is_response rest = true) /\
    patch Store.Session JsonPatch.apply req Server.start
    = patch Store.Session JsonPatch.apply req' Server.start.
Proof.
  apply (truthy_body_id_is_deleted Store.Session JsonPatch.apply
           (Server.request 5 (JObj [("_id", JNum 7); ("name", JStr "a")]))
           Server.start (JNum 7)); reflexivity.
Defined.

(** ** Upsert and Create on the store of the spec *)

Lemma with_id_remove_prop (k : Z) (props : Props) :
  Store.with_id k (remove_prop "_id" props) = Store.with_id k props.
Proof. unfold Store.with_id. now rewrite remove_prop_idem. Qed.

(** Whatever the opening statement leaves of an object body, the store
    makes the same record of it. *)
Lemma delete_body_id_object (k : Z) (props : Props) :
  exists props',
    delete_body_id (JObj props) = Resolved (JObj props') /\
    Store.with_id k props' = Store.with_id k props.
Proof.
  unfold delete_body_id. simpl.
  destruct (truthy (lookup_prop "_id" props)).
  - exists (remove_prop "_id" props). split; [reflexivity|].
    apply with_id_remove_prop.
  - exists props. split; reflexivity.
Qed.

(** C6: an upsert with the [id] of the path and a body of fields answers
    200 with the record at [id] as the body: the record has the identity
    [id] and the fields of the body, and it is what the store holds at
    [id] afterwards, whether a record existed there before (replaced) or
    not (created); the records at other identities are untouched. *)
Theorem upsert_record_at_id (k : Z) (props : Props) (w : Server.W) :
  let req := Server.request k (JObj props) in
  let record := Store.with_id k props in
  let r := Server.upsert req w in
  fst r = Resolved res /\
  (exists body',
      delete_body_id (JObj props) = Resolved body' /\
      log (snd r) = log w ++ [DbUpsert body' (JNum k); ResStatus 200; ResJson record]) /\
  Store.findById (JNum k) (db (snd r)) = Resolved record /\
  get_prop record "_id" = Resolved (JNum k) /\
  (forall f, f <> "_id" -> get_prop record f = get_prop (JObj props) f) /\
  (forall j, j <> k ->
             Store.findById (JNum j) (db (snd r)) = Store.findById (JNum j) (db w)).
Proof.
  cbv zeta.
  destruct (delete_body_id_object k props) as (props' & Hdel & Hrec).
  unfold Server.upsert.
  rewrite (upsert_ok Store.Session (Server.request k (JObj props)) w
             (JObj props') (Store.with_id k props)
             {| Store.records := <[k := Store.with_id k props]> (Store.records (db w));
                Store.next_id := Z.max (Store.next_id (db w)) (k + 1) |}).
  - simpl. repeat apply conj.
    + reflexivity.
    + exists (JObj props'). split; [exact Hdel | reflexivity].
    + now rewrite lookup_insert_eq.
    + reflexivity.
    + intros f Hf.
      destruct (String.eqb f "_id") eqn:E; [apply String.eqb_eq in E; contradiction|].
      now rewrite lookup_remove_prop_ne.
    + intros j Hj. now rewrite lookup_insert_ne.
  - exact Hdel.
  - simpl. now rewrite Hrec.
  - reflexivity.
Qed.

(** C7: a Create answers 201 with the record under the identity the
    store assigned, and a Show of that identity right after it answers 200
    with the same record. *)
Theorem show_after_create (props : Props) (any : JsVal) (w : Server.W) :
  let k := Store.next_id (db w) in
  let created := Store.with_id k props in
  let r := Server.create {| params_id := any; body := JObj props |} w in
  fst r = Resolved res /\
  log (snd r) = log w ++ [DbCreate (JObj props); ResStatus 201; ResJson created] /\
  get_prop created "_id" = Resolved (JNum k) /\
  (forall b,
      Server.show (Server.request k b) (Server.next r)
      = (Resolved res,
         {| db := db (snd r);
            log := [DbFind (JNum k); ResStatus 200; ResJson created] |})).
Proof.
  cbv zeta. unfold Server.create.
  rewrite (create_ok Store.Session {| params_id := any; body := JObj props |} w
             (Store.with_id (Store.next_id (db w)) props)
             {| Store.records :=
                  <[Store.next_id (db w) := Store.with_id (Store.next_id (db w)) props]>
                    (Store.records (db w));
                Store.next_id := Store.next_id (db w) + 1 |});
    [|reflexivity|reflexivity].
  repeat apply conj; try reflexivity.
  intros b. unfold Server.show, Server.next.
  rewrite (show_ok Store.Session _ _ (Store.with_id (Store.next_id (db w)) props)).
  - reflexivity.
  - simpl. now rewrite lookup_insert_eq.
  - reflexivity.
Qed.

(** ** The API client *)

Lemma formatErrors_rejects {Net : Type} (error : JsVal) (net : Net) :
  ApiService.formatErrors Net error net
  = (ApiService.normalized (Rejected error), net).
Proof.
  unfold ApiService.formatErrors, ApiService.normalized, then_, lift, reject.
  destruct (get_prop error "error"); reflexivity.
Qed.

(** One call on the transport, and [formatErrors] on its failure. *)
Lemma catchError_formatErrors {Net : Type} (source : Async Net JsVal) (net : Net) :
  ApiService.catchError Net source (ApiService.formatErrors Net) net
  = (ApiService.normalized (fst (source net)), snd (source net)).
Proof.
  unfold ApiService.catchError, catch_.
  destruct (source net) as [[body|error] net']; simpl; [reflexivity|].
  apply formatErrors_rejects.
Qed.

(** C4: each of the four calls of the client performs one call on the
    transport, for its verb and for the URL made of the base URL and the
    path, and hands its outcome on: the decoded body when the transport
    succeeds, and otherwise a failure whose reason is the [error] member
    that [formatErrors] takes out of the transport's error.  The state
    behind the transport is the one that single call leaves: nothing is
    tried again and nothing is answered from an earlier call. *)
Theorem api_call_outcome {Net : Type} (http : ApiService.HttpCall -> Async Net JsVal)
  (JSON_stringify : JsVal -> string) (apiUrl path : string)
  (params body : option JsVal) (net : Net) :
  let observed call :=
    (ApiService.normalized (fst (http call net)), snd (http call net)) in
  let json v := Some (JStr (JSON_stringify (default (JObj []) v))) in
  ApiService.get Net http apiUrl path params net
  = observed {| ApiService.verb := ApiService.GET;
                ApiService.url := apiUrl +:+ path;
                ApiService.params := Some (default (JObj []) params);
                ApiService.payload := None |} /\
  ApiService.put Net http JSON_stringify apiUrl path body net
  = observed {| ApiService.verb := ApiService.PUT;
                ApiService.url := apiUrl +:+ path;
                ApiService.params := None;
                ApiService.payload := json body |} /\
  ApiService.post Net http JSON_stringify apiUrl path body net
  = observed {| ApiService.verb := ApiService.POST;
                ApiService.url := apiUrl +:+ path;
                ApiService.params := None;
                ApiService.payload := json body |} /\
  ApiService.delete Net http apiUrl path net
  = observed {| ApiService.verb := ApiService.DELETE;
                ApiService.url := apiUrl +:+ path;
                ApiService.params := None;
                ApiService.payload := None |} /\
  (forall o : Outcome JsVal,
      match o with
      | Resolved decoded => ApiService.normalized o = Resolved decoded
      | Rejected error =>
          exists reason,
            ApiService.normalized o = Rejected reason /\
            (forall members, error = JObj members ->
                             reason = lookup_prop "error" members)
      end).
Proof.
  cbv zeta.
  repeat apply conj;
    try (unfold ApiService.get, ApiService.put, ApiService.post, ApiService.delete;
         apply catchError_formatErrors).
  intros [decoded|error]; [reflexivity|].
  unfold ApiService.normalized.
  destruct (get_prop error "error") as [payload|thrown] eqn:E.
  - exists payload. split; [reflexivity|].
    intros members ->. simpl in E. congruence.
  - exists thrown. split; [reflexivity|].
    intros members ->. discriminate.
Qed.

(** ** The scenarios of the spec, run *)

(** Create, Show, Patch, Destroy, Show on the empty store. *)
Example scenario_lifecycle :
  let rename := JArr [Server.operation "replace" "/name" (JStr "b")] in
  let r1 := Server.create (Server.request 0 (JObj [("name", JStr "a")])) Server.start in
  let r2 := Server.show (Server.request 1 JUndefined) (Server.next r1) in
  let r3 := Server.patch (Server.request 1 rename) (Server.next r2) in
  let r4 := Server.destroy (Server.request 1 JUndefined) (Server.next r3) in
  let r5 := Server.show (Server.request 1 JUndefined) (Server.next r4) in
  List.filter is_response (log (snd r1))
  = [ResStatus 201; ResJson (JObj [("_id", JNum 1); ("name", JStr "a")])] /\
  List.filter is_response (log (snd r2))
  = [ResStatus 200; ResJson (JObj [("_id", JNum 1); ("name", JStr "a")])] /\
  List.filter is_response (log (snd r3))
  = [ResStatus 200; ResJson (JObj [("_id", JNum 1); ("name", JStr "b")])] /\
  List.filter is_response (log (snd r4)) = [ResStatus 204; ResEnd] /\
  List.filter is_response (log (snd r5)) = [ResStatus 404; ResEnd].
Proof. repeat apply conj; reflexivity. Qed.

(** A transport that counts the calls made on it and answers each with a
    404 whose [error] member is the server's payload: the client fails
    with that payload after one call. *)
Example get_not_found_once :
  let payload := JObj [("message", JStr "not found")] in
  let http (_ : ApiService.HttpCall) : Async nat JsVal :=
    fun calls =>
      (Rejected (JObj [("status", JNum 404); ("error", payload)]), S calls) in
  ApiService.get nat http "http://localhost:3000" "/api/sessions/9" None 0%nat
  = (Rejected payload, 1%nat).
Proof. reflexivity. Qed.

(** * Further properties of the handlers *)

Lemma calls_of_extend {S : Type} (w : World S) (o : Outcome JsVal) (s' : S)
  (es : list Event) :
  calls_of w (o, extend s' w es) = es.
Proof. unfold calls_of, extend. simpl. apply drop_app_length. Qed.

Lemma calls_of_same {S : Type} (w : World S) (o : Outcome JsVal) :
  calls_of w (o, w) = [].
Proof. unfold calls_of. simpl. apply drop_all. Qed.

(** ** The remaining cases of the handlers *)

Section MoreCases.

Context {S : Type}.
Variable Session : Sequelize.Model S.
Variable jsonpatch_apply : JsVal -> JsVal -> Outcome JsVal.
Variables (req : Request) (w : World S).

Lemma index_falsy (v : JsVal) :
  Sequelize.findAll Session (db w) = Resolved v -> truthy v = false ->
  index Session req w = (Resolved JNull, extend (db w) w [DbFindAll]).
Proof. intros Hf Ht. chain. Qed.

Lemma create_falsy (entity : JsVal) (s' : S) :
  Sequelize.create Session (body req) (db w) = (Resolved entity, s') ->
  truthy entity = false ->
  create Session req w = (Resolved JNull, extend s' w [DbCreate (body req)]).
Proof. intros Hc Ht. chain. Qed.

Lemma patch_save_falsy (patches patched saved : JsVal) (props : Props) (s' : S) :
  delete_body_id (body req) = Resolved patches ->
  Sequelize.find Session (params_id req) (db w) = Resolved (JObj props) ->
  jsonpatch_apply (JObj props) patches = Resolved patched ->
  Sequelize.save Session patched (db w) = (Resolved saved, s') ->
  truthy saved = false ->
  patch Session jsonpatch_apply req w
  = (Resolved JNull, extend s' w [DbFind (params_id req); DbSave patched]).
Proof. intros Hb Hf Hp Hs Ht. chain. Qed.

(** A value without the method [save]: [patchUpdates] rejects, with the
    error of the patch function or with the [TypeError] of the call. *)
Lemma patchUpdates_no_method (patches entity : JsVal) (w' : World S) :
  (forall props, entity <> JObj props) ->
  exists err,
    patchUpdates Session jsonpatch_apply patches entity w' = (Rejected err, w').
Proof.
  intros Hno. unfold patchUpdates, method_call, reject.
  destruct (jsonpatch_apply entity patches) as [patched|err]; [|eauto].
  destruct entity; eauto. now destruct (Hno props).
Qed.

Lemma patch_no_instance (patches entity : JsVal) :
  delete_body_id (body req) = Resolved patches ->
  Sequelize.find Session (params_id req) (db w) = Resolved entity ->
  no_instance entity ->
  exists err,
    patch Session jsonpatch_apply req w
    = (Resolved JUndefined,
       extend (db w) w [DbFind (params_id req); ResStatus 500; ResSend err]).
Proof.
  intros Hb Hf [Ht Hno].
  destruct (patchUpdates_no_method patches entity
              {| db := db w; log := [DbFind (params_id req)] |} Hno)
    as [err Hn].
  exists err. revert Hn.
  unfold patch, Session_find, handleEntityNotFound, respondWithResult,
    handleError, on_own_response, catch_, then_, lift, db_read, emit,
    send_body, headersSent, resolve, extend, or_default.
  use_outcomes. intros ->. reflexivity.
Qed.

Lemma destroy_no_instance (entity : JsVal) :
  Sequelize.find Session (params_id req) (db w) = Resolved entity ->
  no_instance entity ->
  destroy Session req w
  = (Resolved JUndefined,
     extend (db w) w [DbFind (params_id req); ResStatus 500;
                      ResSend (TypeError "Cannot read property of null")]).
Proof.
  intros Hf [Ht Hno].
  destruct entity; try discriminate; try (now destruct (Hno props));
    simpl in Ht; chain.
Qed.

End MoreCases.

(** ** Every way a handler can go *)

Section Runs.

Context {S : Type}.
Variable Session : Sequelize.Model S.
Variable jsonpatch_apply : JsVal -> JsVal -> Outcome JsVal.
Variables (req : Request) (w : World S).

Local Abbreviation id := (params_id req).

Lemma index_runs :
  let r := index Session req w in
  (exists v, Sequelize.findAll Session (db w) = Resolved v /\ truthy v = true /\
             r = (Resolved res, extend (db w) w [DbFindAll; ResStatus 200; ResJson v])) \/
  (exists v, Sequelize.findAll Session (db w) = Resolved v /\ truthy v = false /\
             r = (Resolved JNull, extend (db w) w [DbFindAll])) \/
  (exists err, Sequelize.findAll Session (db w) = Rejected err /\
               r = (Resolved JUndefined,
                    extend (db w) w [DbFindAll; ResStatus 500; ResSend err])).
Proof.
  cbv zeta.
  destruct (Sequelize.findAll Session (db w)) as [v|err] eqn:Hf;
    [destruct (truthy v) eqn:Ht|].
  - left. exists v. now rewrite (index_ok Session req w v Hf Ht).
  - right; left. exists v. now rewrite (index_falsy Session req w v Hf Ht).
  - right; right. exists err. now rewrite (index_error Session req w err Hf).
Qed.

Lemma show_runs :
  let r := show Session req w in
  (exists e, Sequelize.find Session id (db w) = Resolved e /\ truthy e = true /\
             r = (Resolved res, extend (db w) w [DbFind id; ResStatus 200; ResJson e])) \/
  (exists e, Sequelize.find Session id (db w) = Resolved e /\ truthy e = false /\
             r = (Resolved JNull, extend (db w) w [DbFind id; ResStatus 404; ResEnd])) \/
  (exists err, Sequelize.find Session id (db w) = Rejected err /\
               r = (Resolved JUndefined,
                    extend (db w) w [DbFind id; ResStatus 500; ResSend err])).
Proof.
  cbv zeta.
  destruct (Sequelize.find Session (params_id req) (db w)) as [e|err] eqn:Hf;
    [destruct (truthy e) eqn:Ht|].
  - left. exists e. now rewrite (show_ok Session req w e Hf Ht).
  - right; left. exists e. now rewrite (show_not_found Session req w e Hf Ht).
  - right; right. exists err. now rewrite (show_error Session req w err Hf).
Qed.

Lemma create_runs :
  let r := create Session req w in
  let written := Sequelize.create Session (body req) (db w) in
  (exists e, fst written = Resolved e /\ truthy e = true /\
             r = (Resolved res,
                  extend (snd written) w [DbCreate (body req); ResStatus 201; ResJson e])) \/
  (exists e, fst written = Resolved e /\ truthy e = false /\
             r = (Resolved JNull, extend (snd written) w [DbCreate (body req)])) \/
  (exists err, fst written = Rejected err /\
               r = (Resolved JUndefined,
                    extend (snd written) w
                           [DbCreate (body req); ResStatus 500; ResSend err])).
Proof.
  cbv zeta.
  destruct (Sequelize.create Session (body req) (db w)) as [[e|err] s'] eqn:Hc;
    [destruct (truthy e) eqn:Ht|]; simpl.
  - left. exists e. now rewrite (create_ok Session req w e s' Hc Ht).
  - right; left. exists e. now rewrite (create_falsy Session req w e s' Hc Ht).
  - right; right. exists err. now rewrite (create_error Session req w err s' Hc).
Qed.

Lemma upsert_runs (body' : JsVal) :
  delete_body_id (body req) = Resolved body' ->
  let r := upsert Session req w in
  let written := Sequelize.upsert Session body' id (db w) in
  (exists e, fst written = Resolved e /\ truthy e = true /\
             r = (Resolved res,
                  extend (snd written) w [DbUpsert body' id; ResStatus 200; ResJson e])) \/
  (exists e, fst written = Resolved e /\ truthy e = false /\
             r = (Resolved JNull, extend (snd written) w [DbUpsert body' id])) \/
  (exists err, fst written = Rejected err /\
               r = (Resolved JUndefined,
                    extend (snd written) w
                           [DbUpsert body' id; ResStatus 500; ResSend err])).
Proof.
  intros Hb. cbv zeta.
  destruct (Sequelize.upsert Session body' (params_id req) (db w))
    as [[e|err] s'] eqn:Hu; [destruct (truthy e) eqn:Ht|]; simpl.
  - left. exists e. now rewrite (upsert_ok Session req w body' e s' Hb Hu Ht).
  - right; left. exists e. now rewrite (upsert_falsy Session req w body' e s' Hb Hu Ht).
  - right; right. exists err. now rewrite (upsert_error Session req w body' err s' Hb Hu).
Qed.

(** Every value is an instance of the model, falsy, or neither. *)
Lemma entity_kinds (entity : JsVal) :
  (exists props, entity = JObj props) \/ truthy entity = false \/ no_instance entity.
Proof.
  destruct (truthy entity) eqn:Ht; [|auto].
  destruct entity; try (right; right; split; [assumption|discriminate]).
  left. eauto.
Qed.

Lemma destroy_runs :
  let r := destroy Session req w in
  (exists err, Sequelize.find Session id (db w) = Rejected err /\
               r = (Resolved JUndefined,
                    extend (db w) w [DbFind id; ResStatus 500; ResSend err])) \/
  (exists e, Sequelize.find Session id (db w) = Resolved e /\ truthy e = false /\
             r = (Resolved JUndefined,
                  extend (db w) w [DbFind id; ResStatus 404; ResEnd])) \/
  (exists e err, Sequelize.find Session id (db w) = Resolved e /\ no_instance e /\
                 r = (Resolved JUndefined,
                      extend (db w) w [DbFind id; ResStatus 500; ResSend err])) \/
  (exists props v s',
      Sequelize.find Session id (db w) = Resolved (JObj props) /\
      Sequelize.destroy Session (JObj props) (db w) = (Resolved v, s') /\
      r = (Resolved JUndefined,
           extend s' w [DbFind id; DbDestroy (JObj props); ResStatus 204; ResEnd])) \/
  (exists props err s',
      Sequelize.find Session id (db w) = Resolved (JObj props) /\
      Sequelize.destroy Session (JObj props) (db w) = (Rejected err, s') /\
      r = (Resolved JUndefined,
           extend s' w [DbFind id; DbDestroy (JObj props); ResStatus 500; ResSend err])).
Proof.
  cbv zeta.
  destruct (Sequelize.find Session (params_id req) (db w)) as [e|err] eqn:Hf.
  - destruct (entity_kinds e) as [[props ->] | [Ht | Hno]].
    + destruct (Sequelize.destroy Session (JObj props) (db w)) as [[v|err] s'] eqn:Hd.
      * do 3 right. left. exists props, v, s'.
        now rewrite (destroy_ok Session req w props v s' Hf Hd).
      * do 4 right. exists props, err, s'.
        now rewrite (destroy_error Session req w props err s' Hf Hd).
    + right; left. exists e. now rewrite (destroy_not_found Session req w e Hf Ht).
    + do 2 right. left. eexists e, _.
      now rewrite (destroy_no_instance Session req w e Hf Hno).
  - left. exists err. now rewrite (destroy_find_error Session req w err Hf).
Qed.

Lemma patch_runs (patches : JsVal) :
  delete_body_id (body req) = Resolved patches ->
  let r := patch Session jsonpatch_apply req w in
  (exists err, Sequelize.find Session id (db w) = Rejected err /\
               r = (Resolved JUndefined,
                    extend (db w) w [DbFind id; ResStatus 500; ResSend err])) \/
  (exists e err, Sequelize.find Session id (db w) = Resolved e /\ truthy e = false /\
                 r = (Rejected ERR_HTTP_HEADERS_SENT,
                      extend (db w) w [DbFind id; ResStatus 404; ResEnd;
                                       ResStatus 500; ResSend err])) \/
  (exists e err, Sequelize.find Session id (db w) = Resolved e /\ truthy e = true /\
                 (jsonpatch_apply e patches = Rejected err \/ no_instance e) /\
                 r = (Resolved JUndefined,
                      extend (db w) w [DbFind id; ResStatus 500; ResSend err])) \/
  (exists props patched,
      Sequelize.find Session id (db w) = Resolved (JObj props) /\
      jsonpatch_apply (JObj props) patches = Resolved patched /\
      let written := Sequelize.save Session patched (db w) in
      ((exists saved, fst written = Resolved saved /\ truthy saved = true /\
                      r = (Resolved res,
                           extend (snd written) w
                                  [DbFind id; DbSave patched; ResStatus 200; ResJson saved])) \/
       (exists saved, fst written = Resolved saved /\ truthy saved = false /\
                      r = (Resolved JNull,
                           extend (snd written) w [DbFind id; DbSave patched])) \/
       (exists err, fst written = Rejected err /\
                    r = (Resolved JUndefined,
                         extend (snd written) w
                                [DbFind id; DbSave patched; ResStatus 500; ResSend err])))).
Proof.
  intros Hb. cbv zeta.
  destruct (Sequelize.find Session (params_id req) (db w)) as [e|err] eqn:Hf.
  - destruct (entity_kinds e) as [[props ->] | [Ht | Hno]].
    + destruct (jsonpatch_apply (JObj props) patches) as [patched|err] eqn:Hp.
      * do 3 right. exists props, patched.
        split; [reflexivity|]. split; [exact Hp|].
        destruct (Sequelize.save Session patched (db w)) as [[saved|err] s'] eqn:Hs;
          [destruct (truthy saved) eqn:Ht|]; simpl.
        -- left. exists saved.
           now rewrite (patch_ok Session jsonpatch_apply req w patches patched saved
                          props s' Hb Hf Hp Hs Ht).
        -- right; left. exists saved.
           now rewrite (patch_save_falsy Session jsonpatch_apply req w patches patched
                          saved props s' Hb Hf Hp Hs Ht).
        -- right; right. exists err.
           now rewrite (patch_save_error Session jsonpatch_apply req w patches patched
                          err props s' Hb Hf Hp Hs).
      * do 2 right. left. exists (JObj props), err.
        rewrite (patch_invalid Session jsonpatch_apply req w patches (JObj props) err
                   Hb Hf eq_refl Hp).
        auto.
    + right; left.
      destruct (patch_not_found Session jsonpatch_apply req w patches e Hb Hf Ht)
        as [err Hr].
      exists e, err. now rewrite Hr.
    + do 2 right. left.
      destruct (patch_no_instance Session jsonpatch_apply req w patches e Hb Hf Hno)
        as [err Hr].
      exists e, err. rewrite Hr. destruct Hno as [Ht Hn].
      repeat split; auto. right. split; assumption.
  - left. exists err.
    now rewrite (patch_find_error Session jsonpatch_apply req w patches err Hb Hf).
Qed.

End Runs.

(** ** What the handlers always and never do *)

Ltac break :=
  repeat match goal with
         | H : _ \/ _ |- _ => destruct H
         | H : exists _, _ |- _ => destruct H
         | H : _ /\ _ |- _ => destruct H
         end.

(** Go through the runs [H] lists, each with the handler's result in
    place of the handler. *)
Ltac by_runs H :=
  let Hruns := fresh "Hruns" in
  pose proof H as Hruns; cbv zeta in Hruns; break;
  repeat match goal with
         | Hr : ?l = (_, _) |- context [?l] => rewrite Hr
         end;
  rewrite ?calls_of_extend, ?calls_of_same; simpl.

(** Two answers to the same call are one answer. *)
Ltac same_answers :=
  simpl in *;
  repeat match goal with
         | Ha : ?l = Resolved _, Hb : ?l = Resolved _ |- _ =>
             rewrite Ha in Hb; inversion Hb; subst; clear Hb
         | Ha : ?l = Resolved _, Hb : ?l = Rejected _ |- _ =>
             rewrite Ha in Hb; discriminate Hb
         end;
  simpl in *; try congruence; try discriminate;
  try match goal with
      | Hn : no_instance (JObj ?p) |- _ =>
          destruct Hn as [_ Hn]; now destruct (Hn p)
      end.

Lemma delete_body_id_throws (body : JsVal) :
  (exists err, delete_body_id body = Rejected err)
  <-> body = JNull \/ body = JUndefined.
Proof.
  split.
  - intros [err H]. destruct body; auto; unfold delete_body_id in H; simpl in H;
      try discriminate.
    destruct (truthy (lookup_prop "_id" props)); discriminate.
  - intros [-> | ->]; eexists; reflexivity.
Qed.

Lemma delete_body_id_present (body : JsVal) :
  body <> JNull -> body <> JUndefined ->
  exists body', delete_body_id body = Resolved body'.
Proof.
  intros Hn Hu. destruct (delete_body_id body) as [body'|err] eqn:H; [eauto|].
  destruct (proj1 (delete_body_id_throws body) (ex_intro _ err H)); contradiction.
Qed.

(** What the opening statement leaves carries no truthy [_id]. *)
Lemma delete_body_id_falsy_after (body body' : JsVal) :
  delete_body_id body = Resolved body' ->
  exists v, get_prop body' "_id" = Resolved v /\ truthy v = false.
Proof.
  unfold delete_body_id.
  destruct (get_prop body "_id") as [v|err] eqn:H; [|discriminate].
  destruct (truthy v) eqn:Ht.
  - destruct (truthy_prop_object _ _ _ H Ht) as (props & -> & _).
    simpl. intros [= <-]. exists JUndefined. simpl.
    now rewrite lookup_remove_prop_eq.
  - intros [= <-]. eauto.
Qed.

Section Always.

Context {S : Type}.
Variable Session : Sequelize.Model S.
Variable jsonpatch_apply : JsVal -> JsVal -> Outcome JsVal.
Variables (req : Request) (w : World S).

Local Abbreviation id := (params_id req).

(** X1: Index, Show, Create and Destroy never reject: whatever the model
    answers, the promise the handler returns resolves, because every
    rejection of the chain ends in the error responder. *)
Theorem handlers_never_reject :
  (exists v, fst (index Session req w) = Resolved v) /\
  (exists v, fst (show Session req w) = Resolved v) /\
  (exists v, fst (create Session req w) = Resolved v) /\
  (exists v, fst (destroy Session req w) = Resolved v).
Proof.
  repeat apply conj.
  - by_runs (index_runs Session req w); eauto.
  - by_runs (show_runs Session req w); eauto.
  - by_runs (create_runs Session req w); eauto.
  - by_runs (destroy_runs Session req w); eauto.
Qed.

(** X2: Upsert and Patch on a request without a body ([req.body] is [null] or
    [undefined]) throw the [TypeError] of reading [_id], before any call on
    the model or on the response. *)
Theorem missing_body_throws :
  body req = JNull \/ body req = JUndefined ->
  exists err,
    upsert Session req w = (Rejected err, w) /\
    patch Session jsonpatch_apply req w = (Rejected err, w).
Proof.
  intros Hb. apply delete_body_id_throws in Hb. destruct Hb as [err Hb].
  exists err. split.
  - apply upsert_thrown. exact Hb.
  - apply patch_thrown. exact Hb.
Qed.

(** X3: With a body, Upsert never rejects.  Patch rejects exactly when
    the [find] resolves with no record: the error responder then runs on
    the response that the 404 has ended, its [send] throws, and that error
    is what the promise rejects with. *)
Theorem patch_rejects_on_absent_only :
  body req <> JNull -> body req <> JUndefined ->
  (exists v, fst (upsert Session req w) = Resolved v) /\
  ((exists err, fst (patch Session jsonpatch_apply req w) = Rejected err)
   <-> exists e, Sequelize.find Session id (db w) = Resolved e /\ truthy e = false) /\
  (forall err, fst (patch Session jsonpatch_apply req w) = Rejected err ->
               err = ERR_HTTP_HEADERS_SENT).
Proof.
  intros Hn Hu.
  destruct (delete_body_id_present _ Hn Hu) as [body' Hb].
  split; [|split].
  - by_runs (upsert_runs Session req w body' Hb); eauto.
  - by_runs (patch_runs Session jsonpatch_apply req w body' Hb);
      (split; [ intros [err' He']; try discriminate He'; eauto
              | intros (e' & He' & Ht'); eauto; same_answers ]).
  - by_runs (patch_runs Session jsonpatch_apply req w body' Hb);
      intros err' He'; try discriminate He'; now inversion He'.
Qed.

(** X4: Index and Show only read: whatever the model answers, they leave the
    store as it is and make no writing call on the model. *)
Theorem reads_never_write :
  db (snd (index Session req w)) = db w /\
  List.filter is_write (calls_of w (index Session req w)) = [] /\
  db (snd (show Session req w)) = db w /\
  List.filter is_write (calls_of w (show Session req w)) = [].
Proof.
  repeat apply conj.
  - by_runs (index_runs Session req w); reflexivity.
  - by_runs (index_runs Session req w); reflexivity.
  - by_runs (show_runs Session req w); reflexivity.
  - by_runs (show_runs Session req w); reflexivity.
Qed.

(** X5: Show always answers, and once: it writes exactly one status, 200, 404
    or 500. *)
Theorem show_answers_once :
  exists code,
    statuses (calls_of w (show Session req w)) = [code] /\
    (code = 200 \/ code = 404 \/ code = 500).
Proof.
  by_runs (show_runs Session req w); eauto.
Qed.

(** X6: Destroy always answers, and once: it writes exactly one status, 204,
    404 or 500. *)
Theorem destroy_answers_once :
  exists code,
    statuses (calls_of w (destroy Session req w)) = [code] /\
    (code = 204 \/ code = 404 \/ code = 500).
Proof.
  by_runs (destroy_runs Session req w); eauto.
Qed.

(** X7: Index and Create write at most one status, and write none exactly
    when the model resolves with a falsy value. *)
Theorem index_create_statuses :
  let listed := Sequelize.findAll Session (db w) in
  let written := fst (Sequelize.create Session (body req) (db w)) in
  In (statuses (calls_of w (index Session req w))) [[]; [200]; [500]] /\
  (statuses (calls_of w (index Session req w)) = []
   <-> exists v, listed = Resolved v /\ truthy v = false) /\
  In (statuses (calls_of w (create Session req w))) [[]; [201]; [500]] /\
  (statuses (calls_of w (create Session req w)) = []
   <-> exists v, written = Resolved v /\ truthy v = false).
Proof.
  cbv zeta. split; [|split; [|split]].
  - by_runs (index_runs Session req w); auto.
  - by_runs (index_runs Session req w);
      (split; [try discriminate; eauto | intros (v & Hv & Ht); congruence || reflexivity]).
  - by_runs (create_runs Session req w); auto.
  - by_runs (create_runs Session req w);
      (split; [try discriminate; eauto | intros (v & Hv & Ht); congruence || reflexivity]).
Qed.

(** X8: Upsert writes at most one status, 200 or 500.  It writes none
    exactly when the request has no body (the opening statement throws
    before any call) or the model's [upsert] resolves with a falsy value. *)
Theorem upsert_statuses :
  let codes := statuses (calls_of w (upsert Session req w)) in
  In codes [[]; [200]; [500]] /\
  (codes = []
   <-> (body req = JNull \/ body req = JUndefined) \/
       exists body' v,
         delete_body_id (body req) = Resolved body' /\
         fst (Sequelize.upsert Session body' id (db w)) = Resolved v /\
         truthy v = false).
Proof.
  cbv zeta.
  destruct (delete_body_id (body req)) as [body'|err] eqn:Hb.
  - assert (Hpresent : ~ (body req = JNull \/ body req = JUndefined)).
    { intros Hnull. apply delete_body_id_throws in Hnull.
      destruct Hnull as [err Herr]. congruence. }
    split.
    + by_runs (upsert_runs Session req w body' Hb); auto.
    + by_runs (upsert_runs Session req w body' Hb);
        (split; [ try discriminate; intros _; right; eauto
                | intros [Hnull | (b' & v & Hb' & Hv & Ht)];
                  [ contradiction | try reflexivity; inversion Hb'; subst;
                                    same_answers ] ]).
  - rewrite (upsert_thrown Session req w err Hb), calls_of_same. simpl.
    split; [auto|].
    split; [|reflexivity].
    intros _. left. apply delete_body_id_throws. eauto.
Qed.

(** X9: The statuses Patch writes are none, 200, 500, or 404 followed by
    500.  The pair is written exactly when the request has a body and the
    [find] resolves with no record.  None is written exactly when the
    request has no body (the opening statement throws before any call), or
    the record was found, patched and saved and the [save] resolved with a
    falsy value. *)
Theorem patch_statuses :
  let codes := statuses (calls_of w (patch Session jsonpatch_apply req w)) in
  In codes [[]; [200]; [500]; [404; 500]] /\
  (codes = [404; 500]
   <-> (body req <> JNull /\ body req <> JUndefined) /\
       exists e, Sequelize.find Session id (db w) = Resolved e /\ truthy e = false) /\
  (codes = []
   <-> (body req = JNull \/ body req = JUndefined) \/
       exists patches props patched saved,
         delete_body_id (body req) = Resolved patches /\
         Sequelize.find Session id (db w) = Resolved (JObj props) /\
         jsonpatch_apply (JObj props) patches = Resolved patched /\
         fst (Sequelize.save Session patched (db w)) = Resolved saved /\
         truthy saved = false).
Proof.
  cbv zeta.
  destruct (delete_body_id (body req)) as [patches|err] eqn:Hb.
  - assert (Hpresent : ~ (body req = JNull \/ body req = JUndefined)).
    { intros Hnull. apply delete_body_id_throws in Hnull.
      destruct Hnull as [err Herr]. congruence. }
    assert (Hbody : body req <> JNull /\ body req <> JUndefined).
    { split; intros Heq; apply Hpresent; auto. }
    split; [|split].
    + by_runs (patch_runs Session jsonpatch_apply req w patches Hb); auto 6.
    + by_runs (patch_runs Session jsonpatch_apply req w patches Hb);
        (split; [ try discriminate; intros _; (split; [split; assumption | eauto])
                | intros (_ & e' & He & Ht'); try reflexivity; same_answers ]).
    + by_runs (patch_runs Session jsonpatch_apply req w patches Hb);
        (split; [ try discriminate; intros _; right; eauto 10
                | intros [Hnull | (q' & p' & d' & s' & Hb' & Hf' & Hp' & Hs' & Ht')];
                  [ contradiction | try reflexivity; inversion Hb'; subst;
                                    same_answers ] ]).
  - rewrite (patch_thrown Session jsonpatch_apply req w err Hb), calls_of_same.
    simpl.
    assert (Hnull : body req = JNull \/ body req = JUndefined).
    { apply delete_body_id_throws. eauto. }
    split; [auto|]. split.
    + split; [discriminate|].
      intros [[Hn Hu] _]. destruct Hnull; contradiction.
    + split; [auto | reflexivity].
Qed.

End Always.

(** ** A falsy identity in the body *)

(** C8 as stated does not hold for Patch.  There the body is the
    argument of the patch function and is never handed to the store.  A
    patch whose body carries the falsy identity 0 calls the store once, to
    find the record of the path; and a patch whose body is a patch
    document (an array: no [_id] at all) has the store find the record and
    save the patched record, which is not the body. *)
Lemma falsy_body_id_not_stored_by_patch :
  let sent := JObj [("_id", JNum 0); ("name", JStr "z")] in
  let rename := JArr [Server.operation "replace" "/name" (JStr "b")] in
  (get_prop sent "_id" = Resolved (JNum 0) /\ truthy (JNum 0) = false /\
   List.filter is_model_call
     (calls_of Server.start (Server.patch (Server.request 999 sent) Server.start))
   = [DbFind (JNum 999)]) /\
  (get_prop rename "_id" = Resolved JUndefined /\ truthy JUndefined = false /\
   List.filter is_model_call
     (calls_of Server.seeded (Server.patch (Server.request 1 rename) Server.seeded))
   = [DbFind (JNum 1); DbSave (JObj [("_id", JNum 1); ("name", JStr "b")])]).
Proof. repeat apply conj; reflexivity. Qed.

(** C8, amended: the opening statement of Upsert and Patch deletes [_id]
    only when its value is truthy.  When the body's [_id] is falsy (0, the
    empty string, [false], [null], or no [_id] at all), the body is left
    as it is.  Upsert hands it to the store with its [_id].  Patch hands
    it to the patch function only: the calls Patch makes on the store are
    the [find] by the [id] of the path and the [save] of the document the
    patch function returned for the record found, never the body. *)
Theorem falsy_body_id_is_kept {S : Type} (Session : Sequelize.Model S)
  (jsonpatch_apply : JsVal -> JsVal -> Outcome JsVal)
  (req : Request) (w : World S) (id : JsVal) :
  get_prop (body req) "_id" = Resolved id ->
  truthy id = false ->
  delete_body_id (body req) = Resolved (body req) /\
  (exists rest,
      snd (upsert Session req w)
      = extend (snd (Sequelize.upsert Session (body req) (params_id req) (db w))) w
               (DbUpsert (body req) (params_id req) :: rest) /\
      forallb is_response rest = true) /\
  (forall props patched,
      Sequelize.find Session (params_id req) (db w) = Resolved (JObj props) ->
      jsonpatch_apply (JObj props) (body req) = Resolved patched ->
      exists rest,
        snd (patch Session jsonpatch_apply req w)
        = extend (snd (Sequelize.save Session patched (db w))) w
                 (DbFind (params_id req) :: DbSave patched :: rest) /\
        forallb is_response rest = true) /\
  (forall e,
      In e (calls_of w (patch Session jsonpatch_apply req w)) ->
      is_model_call e = true ->
      e = DbFind (params_id req) \/
      exists props patched,
        e = DbSave patched /\
        Sequelize.find Session (params_id req) (db w) = Resolved (JObj props) /\
        jsonpatch_apply (JObj props) (body req) = Resolved patched).
Proof.
  intros Hid Ht.
  pose proof (delete_body_id_falsy _ _ Hid Ht) as Hdel.
  split; [exact Hdel|]. split; [|split].
  - apply upsert_one_call. exact Hdel.
  - intros props patched Hf Hp.
    apply (patch_saves Session jsonpatch_apply req w (body req) patched props);
      assumption.
  - by_runs (patch_runs Session jsonpatch_apply req w (body req) Hdel);
      intros e Hin Hcall;
      repeat match goal with
             | H : _ \/ _ |- _ => destruct H
             | H : False |- _ => destruct H
             end; subst; try discriminate; eauto 6.
Qed.

Lemma falsy_body_id_is_kept_witness :
  let sent := JObj [("_id", JNum 0); ("name", JStr "a")] in
  let rename := JArr [Server.operation "replace" "/name" (JStr "b")] in
  let renamed := JObj [("_id", JNum 1); ("name", JStr "b")] in
  ((get_prop sent "_id" = Resolved (JNum 0) /\ truthy (JNum 0) = false) /\
   delete_body_id sent = Resolved sent /\
   exists rest,
     snd (upsert Store.Session (Server.request 5 sent) Server.start)
     = extend (snd (Store.upsert sent (JNum 5) Store.empty)) Server.start
              (DbUpsert sent (JNum 5) :: rest) /\
     forallb is_response rest = true) /\
  ((get_prop rename "_id" = Resolved JUndefined /\ truthy JUndefined = false) /\
   (exists rest,
       snd (patch Store.Session JsonPatch.apply (Server.request 1 rename)
                  Server.seeded)
       = extend (snd (Store.save renamed (db Server.seeded))) Server.seeded
                (DbFind (JNum 1) :: DbSave renamed :: rest) /\
       forallb is_response rest = true) /\
   (DbSave renamed = DbFind (JNum 1) \/
    exists props patched,
      DbSave renamed = DbSave patched /\
      Store.findById (JNum 1) (db Server.seeded) = Resolved (JObj props) /\
      JsonPatch.apply (JObj props) rename = Resolved patched)).
Proof.
  intros sent rename renamed.
  destruct (falsy_body_id_is_kept Store.Session JsonPatch.apply
              (Server.request 5 sent) Server.start (JNum 0) eq_refl eq_refl)
    as (Hdel & Hupsert & _).
  destruct (falsy_body_id_is_kept Store.Session JsonPatch.apply
              (Server.request 1 rename) Server.seeded JUndefined eq_refl eq_refl)
    as (_ & _ & Hsaved & Hcalls).
  split.
  - split; [split; reflexivity|]. split; [exact Hdel | exact Hupsert].
  - split; [split; reflexivity|]. split.
    + apply (Hsaved [("_id", JNum 1); ("name", JStr "a")] renamed); reflexivity.
    + apply (Hcalls (DbSave renamed)).
      * right. left. reflexivity.
      * reflexivity.
Defined.

(** ** The calls on the model *)

Section ModelCalls.

Context {S : Type}.
Variable Session : Sequelize.Model S.
Variable jsonpatch_apply : JsVal -> JsVal -> Outcome JsVal.
Variables (req : Request) (w : World S).

Local Abbreviation id := (params_id req).

(** X10: In every handler and every run the calls on the model, at most two,
    come first and the calls on the response come after them: no handler
    calls the model once it has begun to answer. *)
Theorem model_calls_precede_response :
  let model_first es :=
    es = List.filter is_model_call es ++ List.filter is_response es /\
    (length (List.filter is_model_call es) <= 2)%nat in
  model_first (calls_of w (index Session req w)) /\
  model_first (calls_of w (show Session req w)) /\
  model_first (calls_of w (create Session req w)) /\
  model_first (calls_of w (upsert Session req w)) /\
  model_first (calls_of w (patch Session jsonpatch_apply req w)) /\
  model_first (calls_of w (destroy Session req w)).
Proof.
  cbv zeta. repeat apply conj.
  1,2: by_runs (index_runs Session req w); (reflexivity || lia).
  1,2: by_runs (show_runs Session req w); (reflexivity || lia).
  1,2: by_runs (create_runs Session req w); (reflexivity || lia).
  1,2: destruct (delete_body_id (body req)) as [body'|err] eqn:Hb;
    [ by_runs (upsert_runs Session req w body' Hb); (reflexivity || lia)
    | rewrite (upsert_thrown Session req w err Hb), calls_of_same; simpl;
      (reflexivity || lia) ].
  1,2: destruct (delete_body_id (body req)) as [body'|err] eqn:Hb;
    [ by_runs (patch_runs Session jsonpatch_apply req w body' Hb);
      (reflexivity || lia)
    | rewrite (patch_thrown Session jsonpatch_apply req w err Hb), calls_of_same;
      simpl; (reflexivity || lia) ].
  1,2: by_runs (destroy_runs Session req w); (reflexivity || lia).
Qed.

(** X11: Create hands the model the body as it arrived, with any [_id] it
    carries: unlike Upsert and Patch it deletes nothing.  That call is its
    only call on the model, and the store is left as the call leaves it
    whatever is answered. *)
Theorem create_keeps_body :
  exists responses,
    calls_of w (create Session req w) = DbCreate (body req) :: responses /\
    forallb is_response responses = true /\
    db (snd (create Session req w))
    = snd (Sequelize.create Session (body req) (db w)).
Proof.
  by_runs (create_runs Session req w); eauto.
Qed.

(** X12: The only call Upsert makes on the model is [upsert], selected by the
    [id] of the path, and the values it hands over never carry a truthy
    [_id]. *)
Theorem upsert_values_without_truthy_id (e : Event) :
  In e (calls_of w (upsert Session req w)) ->
  is_model_call e = true ->
  exists values v,
    e = DbUpsert values id /\
    delete_body_id (body req) = Resolved values /\
    get_prop values "_id" = Resolved v /\ truthy v = false.
Proof.
  destruct (delete_body_id (body req)) as [body'|err] eqn:Hb.
  - destruct (delete_body_id_falsy_after _ _ Hb) as (v & Hv & Ht).
    by_runs (upsert_runs Session req w body' Hb);
      intros Hin Hcall; exists body', v;
      repeat match goal with
             | H : _ \/ _ |- _ => destruct H
             | H : False |- _ => destruct H
             end; subst; try discriminate; auto.
  - rewrite (upsert_thrown Session req w err Hb), calls_of_same. intros [].
Qed.

(** X13: Patch writes to the store by [save] only, and only the document the
    patch function returned for the record found; in a run without a
    [save] the store is left as it was. *)
Theorem patch_writes_by_save_only :
  (forall e,
      In e (calls_of w (patch Session jsonpatch_apply req w)) ->
      is_write e = true ->
      exists patches props patched,
        e = DbSave patched /\
        delete_body_id (body req) = Resolved patches /\
        Sequelize.find Session id (db w) = Resolved (JObj props) /\
        jsonpatch_apply (JObj props) patches = Resolved patched) /\
  ((forall patched,
       ~ In (DbSave patched) (calls_of w (patch Session jsonpatch_apply req w))) ->
   db (snd (patch Session jsonpatch_apply req w)) = db w).
Proof.
  destruct (delete_body_id (body req)) as [patches|err] eqn:Hb.
  - split.
    + by_runs (patch_runs Session jsonpatch_apply req w patches Hb);
        intros e Hin Hwrite;
        repeat match goal with
               | H : _ \/ _ |- _ => destruct H
               | H : False |- _ => destruct H
               end; subst; try discriminate; eauto 8.
    + by_runs (patch_runs Session jsonpatch_apply req w patches Hb);
        intros Hnone; try reflexivity;
        exfalso; eapply Hnone; simpl; eauto.
  - rewrite (patch_thrown Session jsonpatch_apply req w err Hb), calls_of_same.
    split; [intros e [] | reflexivity].
Qed.

(** X14: Destroy writes to the store by [destroy] only, and only on the record
    the [find] resolved with; in a run without it the store is left as it
    was. *)
Theorem destroy_writes_found_only :
  (forall e,
      In e (calls_of w (destroy Session req w)) ->
      is_write e = true ->
      exists props,
        e = DbDestroy (JObj props) /\
        Sequelize.find Session id (db w) = Resolved (JObj props)) /\
  ((forall entity, ~ In (DbDestroy entity) (calls_of w (destroy Session req w))) ->
   db (snd (destroy Session req w)) = db w).
Proof.
  split.
  - by_runs (destroy_runs Session req w);
      intros e Hin Hwrite;
      repeat match goal with
             | H : _ \/ _ |- _ => destruct H
             | H : False |- _ => destruct H
             end; subst; try discriminate; eauto.
  - by_runs (destroy_runs Session req w);
      intros Hnone; try reflexivity;
      exfalso; eapply Hnone; simpl; eauto.
Qed.

(** X15: Index answers 200 with the sequence the model resolves with, also
    when the sequence is empty: an array is truthy whatever it holds. *)
Theorem index_any_sequence (items : list JsVal) :
  Sequelize.findAll Session (db w) = Resolved (JArr items) ->
  index Session req w
  = (Resolved res,
     extend (db w) w [DbFindAll; ResStatus 200; ResJson (JArr items)]).
Proof.
  intros Hf. apply (index_ok Session req w (JArr items) Hf). reflexivity.
Qed.

(** X16: Destroy, then Show: when the model no longer finds the record once it
    is destroyed, Destroy answers 204 and a Show of the same [id] on the
    store Destroy left answers 404, whatever the next request carries
    besides the [id]. *)
Theorem destroy_then_show (props : Props) (v gone : JsVal) (s' : S)
  (req' : Request) (w' : World S) :
  Sequelize.find Session id (db w) = Resolved (JObj props) ->
  Sequelize.destroy Session (JObj props) (db w) = (Resolved v, s') ->
  Sequelize.find Session id s' = Resolved gone ->
  truthy gone = false ->
  params_id req' = id ->
  db w' = db (snd (destroy Session req w)) ->
  statuses (calls_of w (destroy Session req w)) = [204] /\
  statuses (calls_of w' (show Session req' w')) = [404] /\
  db (snd (show Session req' w')) = s'.
Proof.
  intros Hf Hd Hgone Ht Hid Hdb.
  rewrite (destroy_ok Session req w props v s' Hf Hd) in *.
  rewrite calls_of_extend. simpl in Hdb.
  rewrite <- Hid, <- Hdb in Hgone.
  rewrite (show_not_found Session req' w' gone Hgone Ht), calls_of_extend.
  simpl. auto.
Qed.

End ModelCalls.

(** ** The client's failures *)

(** X17: When the error the transport fails with has no [error] member (an
    object without it, or a string, a number, a boolean, an array), the
    client fails with [undefined]: what the transport reported is lost.
    The four calls behave alike. *)
Theorem error_without_member_is_lost {Net : Type}
  (http : ApiService.HttpCall -> Async Net JsVal)
  (JSON_stringify : JsVal -> string) (apiUrl path : string)
  (params body : option JsVal) (net net' : Net) (error : JsVal) :
  (forall call, http call net = (Rejected error, net')) ->
  get_prop error "error" = Resolved JUndefined ->
  ApiService.get Net http apiUrl path params net = (Rejected JUndefined, net') /\
  ApiService.put Net http JSON_stringify apiUrl path body net
  = (Rejected JUndefined, net') /\
  ApiService.post Net http JSON_stringify apiUrl path body net
  = (Rejected JUndefined, net') /\
  ApiService.delete Net http apiUrl path net = (Rejected JUndefined, net').
Proof.
  intros Hfail Hmember.
  unfold ApiService.get, ApiService.put, ApiService.post, ApiService.delete.
  rewrite !catchError_formatErrors, !Hfail. simpl.
  rewrite Hmember. auto.
Qed.

(** ** The properties above on the scenarios *)

Lemma missing_body_throws_witness :
  exists err,
    upsert Store.Session (Server.request 1 JUndefined) Server.start
    = (Rejected err, Server.start) /\
    patch Store.Session JsonPatch.apply (Server.request 1 JUndefined) Server.start
    = (Rejected err, Server.start).
Proof.
  apply (missing_body_throws Store.Session JsonPatch.apply
           (Server.request 1 JUndefined) Server.start).
  right. reflexivity.
Defined.

Lemma patch_rejects_on_absent_only_witness :
  let req := Server.request 999 (JArr []) in
  (exists v, fst (upsert Store.Session req Server.start) = Resolved v) /\
  ((exists err, fst (patch Store.Session JsonPatch.apply req Server.start)
                = Rejected err)
   <-> exists e, Store.findById (JNum 999) Store.empty = Resolved e /\
                 truthy e = false) /\
  (forall err, fst (patch Store.Session JsonPatch.apply req Server.start)
               = Rejected err ->
               err = ERR_HTTP_HEADERS_SENT).
Proof.
  apply (patch_rejects_on_absent_only Store.Session JsonPatch.apply
           (Server.request 999 (JArr [])) Server.start); discriminate.
Defined.

Lemma upsert_values_without_truthy_id_witness :
  let req := Server.request 5 (JObj [("_id", JNum 7); ("name", JStr "a")]) in
  exists values v,
    DbUpsert (JObj [("name", JStr "a")]) (JNum 5) = DbUpsert values (JNum 5) /\
    delete_body_id (body req) = Resolved values /\
    get_prop values "_id" = Resolved v /\ truthy v = false.
Proof.
  apply (upsert_values_without_truthy_id Store.Session
           (Server.request 5 (JObj [("_id", JNum 7); ("name", JStr "a")]))
           Server.start
           (DbUpsert (JObj [("name", JStr "a")]) (JNum 5))).
  - left. reflexivity.
  - reflexivity.
Defined.

Lemma patch_writes_by_save_only_witness :
  let rename := JArr [Server.operation "replace" "/name" (JStr "b")] in
  let req := Server.request 1 rename in
  let renamed := JObj [("_id", JNum 1); ("name", JStr "b")] in
  exists patches props patched,
    DbSave renamed = DbSave patched /\
    delete_body_id (body req) = Resolved patches /\
    Store.findById (JNum 1) (db Server.seeded) = Resolved (JObj props) /\
    JsonPatch.apply (JObj props) patches = Resolved patched.
Proof.
  intros rename req renamed.
  destruct (patch_writes_by_save_only Store.Session JsonPatch.apply req
              Server.seeded) as [Hwrites _].
  apply (Hwrites (DbSave renamed)).
  - right. left. reflexivity.
  - reflexivity.
Defined.

Lemma destroy_writes_found_only_witness :
  let req := Server.request 1 JUndefined in
  let stored := [("_id", JNum 1); ("name", JStr "a")] in
  (exists props,
      DbDestroy (JObj stored) = DbDestroy (JObj props) /\
      Store.findById (JNum 1) (db Server.seeded) = Resolved (JObj props)) /\
  db (snd (destroy Store.Session (Server.request 999 JUndefined) Server.seeded))
  = db Server.seeded.
Proof.
  intros req stored.
  destruct (destroy_writes_found_only Store.Session req Server.seeded)
    as [Hwrites _].
  destruct (destroy_writes_found_only Store.Session
              (Server.request 999 JUndefined) Server.seeded) as [_ Hkept].
  split.
  - apply (Hwrites (DbDestroy (JObj stored))).
    + right. left. reflexivity.
    + reflexivity.
  - apply Hkept. intros entity [H|[H|[H|[]]]]; discriminate H.
Defined.

Lemma index_any_sequence_witness :
  index Store.Session (Server.request 0 JUndefined) Server.start
  = (Resolved res,
     extend Store.empty Server.start [DbFindAll; ResStatus 200; ResJson (JArr [])]).
Proof.
  apply (index_any_sequence Store.Session (Server.request 0 JUndefined)
           Server.start []).
  reflexivity.
Defined.

Lemma destroy_then_show_witness :
  let req := Server.request 1 JUndefined in
  let w' := Server.next (destroy Store.Session req Server.seeded) in
  statuses (calls_of Server.seeded (destroy Store.Session req Server.seeded)) = [204] /\
  statuses (calls_of w' (show Store.Session req w')) = [404] /\
  db (snd (show Store.Session req w'))
  = snd (Store.deleteById (JObj [("_id", JNum 1); ("name", JStr "a")])
                          (db Server.seeded)).
Proof.
  intros req w'.
  apply (destroy_then_show Store.Session req Server.seeded
           [("_id", JNum 1); ("name", JStr "a")] JUndefined JNull
           (snd (Store.deleteById (JObj [("_id", JNum 1); ("name", JStr "a")])
                                  (db Server.seeded)))
           req w'); reflexivity.
Defined.

Lemma error_without_member_is_lost_witness :
  let http (_ : ApiService.HttpCall) : Async nat JsVal :=
    fun calls => (Rejected (JStr "socket hang up"), S calls) in
  let stringify (_ : JsVal) := "{}" in
  ApiService.get nat http "http://localhost:3000" "/api/sessions" None 0%nat
  = (Rejected JUndefined, 1%nat) /\
  ApiService.put nat http stringify "http://localhost:3000" "/api/sessions/1" None 0%nat
  = (Rejected JUndefined, 1%nat) /\
  ApiService.post nat http stringify "http://localhost:3000" "/api/sessions" None 0%nat
  = (Rejected JUndefined, 1%nat) /\
  ApiService.delete nat http "http://localhost:3000" "/api/sessions" 0%nat
  = (Rejected JUndefined, 1%nat).
Proof.
  intros http stringify.
  pose proof (error_without_member_is_lost http stringify
                "http://localhost:3000" "/api/sessions" None None 0%nat 1%nat
                (JStr "socket hang up") (fun _ => eq_refl) eq_refl)
    as (Hget & _ & Hpost & Hdelete).
  pose proof (error_without_member_is_lost http stringify
                "http://localhost:3000" "/api/sessions/1" None None 0%nat 1%nat
                (JStr "socket hang up") (fun _ => eq_refl) eq_refl)
    as (_ & Hput & _).
  repeat apply conj; assumption.
Defined.
